(** * json-to-pdf: the rendering orchestration of tools/json-to-pdf.ts

    A shallow embedding of the standalone JSON-to-PDF driver: the command
    line handling, the metadata override merge, the rendering-server and
    browser life cycle, the in-page geometry pass and the PDF capture call.

    Conventions of the embedding.
    - A JavaScript number is an exact rational or NaN ([number]).  The
      rounding of binary64, overflow to an infinity and the sign of zero are
      outside this model; every quantity the driver computes from integer
      page sizes and margins is exact in both.
    - Strings are [string]; the conversions between strings and numbers that
      the JavaScript runtime provides are the fields of the class [Runtime],
      with the decimal instance [decimal_runtime] used for evaluation.
    - External collaborators (the file system, the child process, the
      browser) are the fields of a [world]; the driver is a program in a
      writer-and-exception monad whose trace lists the effects it performs. *)

From Stdlib Require Import ZArith QArith Qround List String Ascii Bool Lia.
From Stdlib Require Import DecimalString.
Import ListNotations.

Set Warnings "-register-all".

Local Open Scope string_scope.
Local Open Scope Z_scope.

(* ------------------------------------------------------------------ *)
(** ** Numbers *)

Module JsNumber.

Inductive number : Type :=
| NaN
| Num (q : Q).

Definition of_Z (z : Z) : number := Num (inject_Z z).

Definition isNaN (n : number) : bool :=
  match n with NaN => true | Num _ => false end.

Definition add (a b : number) : number :=
  match a, b with
  | Num x, Num y => Num (Qred (x + y))
  | _, _ => NaN
  end.

Definition sub (a b : number) : number :=
  match a, b with
  | Num x, Num y => Num (Qred (x - y))
  | _, _ => NaN
  end.

Definition mul (a b : number) : number :=
  match a, b with
  | Num x, Num y => Num (Qred (x * y))
  | _, _ => NaN
  end.

(** Division; a zero divisor (an infinity or NaN in JavaScript) is NaN here.
    The driver only divides by the constant 0.75. *)
Definition div (a b : number) : number :=
  match a, b with
  | Num x, Num y => if Qeq_bool y 0 then NaN else Num (Qred (x / y))
  | _, _ => NaN
  end.

(** [Math.round]: the nearest integer, ties towards plus infinity.  The
    quotient it is applied to is exact here and rounded to binary64 in the
    driver; the two results agree while the quotient is below 2^52 in
    magnitude, and may differ by one beyond. *)
Definition Math_round (a : number) : number :=
  match a with
  | Num x => of_Z (Qfloor (x + (1 # 2)))
  | NaN => NaN
  end.

(** [Math.max] of two arguments: NaN when either is NaN. *)
Definition Math_max (a b : number) : number :=
  match a, b with
  | Num x, Num y => Num (if Qle_bool x y then y else x)
  | _, _ => NaN
  end.

(** [a > b]; false when either side is NaN. *)
Definition gtb (a b : number) : bool :=
  match a, b with
  | Num x, Num y => negb (Qle_bool x y)
  | _, _ => false
  end.

(** ToBoolean on a number: 0 and NaN are falsy. *)
Definition truthy (a : number) : bool :=
  match a with
  | Num x => negb (Qeq_bool x 0)
  | NaN => false
  end.

(** [a || b] on numbers. *)
Definition or_else (a b : number) : number :=
  if truthy a then a else b.

Definition three_quarters : number := Num (3 # 4).

End JsNumber.
Export JsNumber.

(* ------------------------------------------------------------------ *)
(** ** Strings *)

Module JsString.

(** White space, among the characters of ASCII. *)
Definition is_space (c : ascii) : bool :=
  let n := nat_of_ascii c in
  (Nat.eqb n 32 || Nat.eqb n 9 || Nat.eqb n 10 || Nat.eqb n 11
   || Nat.eqb n 12 || Nat.eqb n 13)%bool.

Definition is_digit (c : ascii) : bool :=
  let n := nat_of_ascii c in (Nat.leb 48 n && Nat.leb n 57)%bool.

Definition digit_val (c : ascii) : Z := Z.of_nat (nat_of_ascii c) - 48.

(** ASCII lower-casing of one character, as the [i] flag compares. *)
Definition lower (c : ascii) : ascii :=
  let n := nat_of_ascii c in
  if (Nat.leb 65 n && Nat.leb n 90)%bool then ascii_of_nat (n + 32) else c.

Fixpoint lower_string (s : string) : string :=
  match s with
  | EmptyString => EmptyString
  | String c r => String (lower c) (lower_string r)
  end.

Fixpoint skip_spaces (s : string) : string :=
  match s with
  | String c r => if is_space c then skip_spaces r else s
  | EmptyString => EmptyString
  end.

Fixpoint rev_string (s : string) : string :=
  match s with
  | EmptyString => EmptyString
  | String c r => rev_string r ++ String c EmptyString
  end.

(** [String.prototype.trim]. *)
Definition trim (s : string) : string :=
  rev_string (skip_spaces (rev_string (skip_spaces s))).

Definition is_empty (s : string) : bool :=
  match s with EmptyString => true | _ => false end.

(** [Array.prototype.includes] on an array of strings. *)
Definition includes (l : list string) (s : string) : bool :=
  existsb (String.eqb s) l.

Fixpoint join (sep : string) (l : list string) : string :=
  match l with
  | [] => ""
  | [x] => x
  | x :: r => x ++ sep ++ join sep r
  end.

End JsString.
Export JsString.

(* ------------------------------------------------------------------ *)
(** ** The runtime conversions between strings and numbers *)

(** [parseFloat], [parseInt (_, 10)], the Number-to-String conversion of a
    template literal and the String-to-Number conversion of [Number (_)]. *)
Class Runtime : Type := {
  parseFloat : string -> number;
  parseInt10 : string -> number;
  NumberToString : number -> string;
  StringToNumber : string -> number
}.

Module Decimal.

(** The longest prefix of decimal digits: its value, its length, the rest. *)
Fixpoint scan_digits (s : string) (acc : Z) (n : nat) : Z * nat * string :=
  match s with
  | String c r =>
      if is_digit c then scan_digits r (acc * 10 + digit_val c) (S n)
      else (acc, n, s)
  | EmptyString => (acc, n, s)
  end.

(** An optional sign: [true] for a minus. *)
Definition scan_sign (s : string) : bool * string :=
  match s with
  | String "-" r => (true, r)
  | String "+" r => (false, r)
  | _ => (false, s)
  end.

(** An exponent part [e], sign, digits; absent when no digit follows. *)
Definition scan_exponent (s : string) : Z * string :=
  match s with
  | String c r =>
      if (Ascii.eqb c "e" || Ascii.eqb c "E")%bool then
        let '(neg, r1) := scan_sign r in
        let '(e, n, r2) := scan_digits r1 0 0 in
        match n with
        | O => (0, s)
        | _ => (if neg then - e else e, r2)
        end
      else (0, s)
  | EmptyString => (0, s)
  end.

Definition pow10 (e : Z) : Q :=
  if e <? 0 then 1 # Z.to_pos (10 ^ (- e)) else inject_Z (10 ^ e).

(** An unsigned decimal literal at the head of [s]: digits, an optional
    fraction, an optional exponent.  [None] when no digit is there. *)
Definition scan_decimal (s : string) : option (Q * string) :=
  let '(ip, ni, r1) := scan_digits s 0 0 in
  let '(fp, nf, r2) :=
    match r1 with
    | String "." r => scan_digits r 0 0
    | _ => (0, O, r1)
    end in
  match ni, nf with
  | O, O => None
  | _, _ =>
      let '(e, r3) := scan_exponent r2 in
      let m := (inject_Z ip + inject_Z fp * pow10 (- Z.of_nat nf))%Q in
      Some (Qred (m * pow10 e), r3)
  end.

Definition signed (neg : bool) (q : Q) : Q := if neg then Qred (- q) else q.

(** [parseFloat]: leading white space, a sign, the longest decimal prefix.
    The literal Infinity is outside the model. *)
Definition parseFloat (s : string) : number :=
  let '(neg, r) := scan_sign (skip_spaces s) in
  match scan_decimal r with
  | Some (q, _) => Num (signed neg q)
  | None => NaN
  end.

(** [parseInt (s, 10)]. *)
Definition parseInt10 (s : string) : number :=
  let '(neg, r) := scan_sign (skip_spaces s) in
  let '(v, n, _) := scan_digits r 0 0 in
  match n with
  | O => NaN
  | _ => of_Z (if neg then - v else v)
  end.

(** [Number (s)] on a string: the whole trimmed string is a decimal literal;
    the empty string is 0.  Hexadecimal, octal and binary literals and
    Infinity are outside the model. *)
Definition StringToNumber (s : string) : number :=
  let t := trim s in
  if is_empty t then of_Z 0
  else
    let '(neg, r) := scan_sign t in
    match scan_decimal r with
    | Some (q, EmptyString) => Num (signed neg q)
    | _ => NaN
    end.

Definition digit_char (d : Z) : ascii := ascii_of_nat (48 + Z.to_nat d).

(** The digits of [r / d] after the decimal point, at most [fuel] of them. *)
Fixpoint frac_digits (fuel : nat) (r d : Z) : string :=
  match fuel with
  | O => ""
  | S k =>
      if r =? 0 then ""
      else String (digit_char (r * 10 / d)) (frac_digits k (r * 10 mod d) d)
  end.

(** Number to String, for the decimal notation of a number whose expansion
    ends within twenty places; the exponent notation of very large and very
    small numbers is outside the model. *)
Definition NumberToString (n : number) : string :=
  match n with
  | NaN => "NaN"
  | Num q =>
      let q' := Qred q in
      let a := Z.abs (Qnum q') in
      let d := Z.pos (Qden q') in
      let ip := NilZero.string_of_uint (N.to_uint (Z.to_N (a / d))) in
      let fr := frac_digits 20 (a mod d) d in
      let sign := if (Qnum q' <? 0)%Z then "-" else "" in
      let tail := if is_empty fr then "" else "." ++ fr in
      sign ++ ip ++ tail
  end.

End Decimal.

#[export] Instance decimal_runtime : Runtime := {
  parseFloat := Decimal.parseFloat;
  parseInt10 := Decimal.parseInt10;
  NumberToString := Decimal.NumberToString;
  StringToNumber := Decimal.StringToNumber
}.

(* ------------------------------------------------------------------ *)
(** ** Values of the parsed payload *)

Module Json.

(** What [JSON.parse] returns, and what the merge of the overrides makes of
    it: an array may carry named properties once one is assigned to it. *)
Inductive jsval : Type :=
| JUndefined
| JNull
| JBool (b : bool)
| JNum (n : number)
| JStr (s : string)
| JArr (items : list jsval) (props : list (string * jsval))
| JObj (props : list (string * jsval)).

Definition props := list (string * jsval).

Fixpoint assoc (k : string) (ps : props) : option jsval :=
  match ps with
  | [] => None
  | (k', v) :: r => if String.eqb k k' then Some v else assoc k r
  end.

(** Assignment to a property: an own key keeps its place, a new key is
    added last. *)
Fixpoint assoc_set (k : string) (x : jsval) (ps : props) : props :=
  match ps with
  | [] => [(k, x)]
  | (k', v) :: r =>
      if String.eqb k k' then (k', x) :: r else (k', v) :: assoc_set k x r
  end.

(** ToBoolean. *)
Definition truthy_val (v : jsval) : bool :=
  match v with
  | JUndefined | JNull => false
  | JBool b => b
  | JNum n => truthy n
  | JStr s => negb (is_empty s)
  | JArr _ _ | JObj _ => true
  end.

Definition nullish (v : jsval) : bool :=
  match v with JUndefined | JNull => true | _ => false end.

(** [a ?? b]. *)
Definition coalesce (a b : jsval) : jsval := if nullish a then b else a.

(** [v.k] for a named (non-index) key on a value that is not nullish; a
    primitive has none of the keys the driver reads. *)
Definition get_prop (v : jsval) (k : string) : jsval :=
  match v with
  | JObj ps | JArr _ ps =>
      match assoc k ps with Some x => x | None => JUndefined end
  | _ => JUndefined
  end.

(** [v.k]: a TypeError ([None]) on null and undefined. *)
Definition member (v : jsval) (k : string) : option jsval :=
  if nullish v then None else Some (get_prop v k).

(** [v?.k]. *)
Definition opt_member (v : jsval) (k : string) : jsval :=
  if nullish v then JUndefined else get_prop v k.

(** [v.k = x] in module (strict) code: a TypeError ([None]) on a primitive. *)
Definition set_prop (v : jsval) (k : string) (x : jsval) : option jsval :=
  match v with
  | JObj ps => Some (JObj (assoc_set k x ps))
  | JArr items ps => Some (JArr items (assoc_set k x ps))
  | _ => None
  end.

Section Conversions.
Context {R : Runtime}.

(** [String (v)]. *)
Fixpoint ToString (v : jsval) : string :=
  match v with
  | JUndefined => "undefined"
  | JNull => "null"
  | JBool true => "true"
  | JBool false => "false"
  | JNum n => NumberToString n
  | JStr s => s
  | JArr items _ =>
      join ","
        (map (fun x => match x with
                       | JUndefined | JNull => ""
                       | _ => ToString x
                       end) items)
  | JObj _ => "[object Object]"
  end.

(** [Number (v)]. *)
Definition ToNumber (v : jsval) : number :=
  match v with
  | JUndefined => NaN
  | JNull => of_Z 0
  | JBool true => of_Z 1
  | JBool false => of_Z 0
  | JNum n => n
  | JStr s => StringToNumber s
  | JArr _ _ | JObj _ => StringToNumber (ToString v)
  end.
End Conversions.

End Json.
Export Json.

(* ------------------------------------------------------------------ *)
(** ** Constants of the driver *)

Record dimensions : Type := { width : Z; height : Z }.

Definition dim_a4 : dimensions := {| width := 794; height := 1123 |}.
Definition dim_letter : dimensions := {| width := 816; height := 1056 |}.

(** [PAGE_DIMENSIONS]; the free-form entry has the size of a4. *)
Definition PAGE_DIMENSIONS : list (string * dimensions) :=
  [ ("a4", dim_a4); ("letter", dim_letter); ("free-form", dim_a4) ].

Definition PRINT_MARGIN_TEMPLATES : list string :=
  [ "azurill"; "bronzor"; "kakuna"; "lapras"; "onyx"; "pikachu"; "rhyhorn" ].

Definition VALID_TEMPLATES : list string :=
  [ "azurill"; "bronzor"; "chikorita"; "ditgar"; "ditto";
    "gengar"; "glalie"; "kakuna"; "lapras"; "leafish";
    "onyx"; "pikachu"; "rhyhorn" ].

Definition VALID_FORMATS : list string := [ "a4"; "letter"; "free-form" ].

Fixpoint lookup_dimensions (k : string) (t : list (string * dimensions))
  : option dimensions :=
  match t with
  | [] => None
  | (k', d) :: r => if String.eqb k k' then Some d else lookup_dimensions k r
  end.

(** The names of the properties that an object literal inherits from
    [Object.prototype]: under each of them the table answers a function (or
    the prototype itself), which is not nullish and has neither a width nor
    a height. *)
Definition OBJECT_PROTOTYPE_KEYS : list string :=
  [ "constructor"; "__defineGetter__"; "__defineSetter__"; "hasOwnProperty";
    "__lookupGetter__"; "__lookupSetter__"; "isPrototypeOf";
    "propertyIsEnumerable"; "toString"; "valueOf"; "__proto__";
    "toLocaleString" ].

(** [PAGE_DIMENSIONS[format] ?? PAGE_DIMENSIONS.a4]: the entry of the
    format, the entry of a4 where the table answers undefined, and [None]
    for the inherited value that is neither. *)
Definition dimensions_of (format : string) : option dimensions :=
  match lookup_dimensions format PAGE_DIMENSIONS with
  | Some d => Some d
  | None =>
      if includes OBJECT_PROTOTYPE_KEYS format then None else Some dim_a4
  end.

(* ------------------------------------------------------------------ *)
(** ** Command line and effective settings *)

(** The result of [parseArgs]. *)
Record cli : Type := {
  opt_template : option string;
  opt_format : option string;
  opt_help : bool;
  positionals : list string
}.

(** Truthiness of an optional string option value. *)
Definition supplied (o : option string) : bool :=
  match o with
  | Some s => negb (is_empty s)
  | None => false
  end.

Definition override_value (o : option string) : jsval :=
  match o with Some s => JStr s | None => JUndefined end.

(** The merge of the overrides into [resumeData.metadata] (the payload is a
    tree, so the assignments through [metadata] and [page] are updates of
    the payload in place).  [None] is an uncaught TypeError. *)
Definition apply_overrides (values : cli) (resumeData : jsval)
  : option jsval :=
  match member resumeData "metadata" with
  | None => None
  | Some metadata =>
      if truthy_val metadata then
        match (if supplied (opt_template values)
               then set_prop metadata "template"
                      (override_value (opt_template values))
               else Some metadata) with
        | None => None
        | Some m1 =>
            match (if supplied (opt_format values) then
                     let page := get_prop m1 "page" in
                     if truthy_val page then
                       match set_prop page "format"
                               (override_value (opt_format values)) with
                       | Some page' => set_prop m1 "page" page'
                       | None => None
                       end
                     else Some m1
                   else Some m1) with
            | None => None
            | Some m2 => set_prop resumeData "metadata" m2
            end
        end
      else Some resumeData
  end.

Section Settings.
Context {R : Runtime}.

Definition metadata_of (resumeData : jsval) : jsval :=
  get_prop resumeData "metadata".

(** [String (metadata?.template ?? "onyx")]. *)
Definition effective_template (resumeData : jsval) : string :=
  ToString (coalesce (opt_member (metadata_of resumeData) "template")
              (JStr "onyx")).

(** [metadata?.page]. *)
Definition pageSettings_of (resumeData : jsval) : jsval :=
  opt_member (metadata_of resumeData) "page".

(** [String (pageSettings?.format ?? "a4")]. *)
Definition effective_format (resumeData : jsval) : string :=
  ToString (coalesce (opt_member (pageSettings_of resumeData) "format")
              (JStr "a4")).

(** The margins in pixels, [(marginX, marginY)]. *)
Definition compute_margins (template : string) (pageSettings : jsval)
  : number * number :=
  if includes PRINT_MARGIN_TEMPLATES template then
    (Math_round
       (div (ToNumber (coalesce (opt_member pageSettings "marginX")
                         (JNum (of_Z 14)))) three_quarters),
     Math_round
       (div (ToNumber (coalesce (opt_member pageSettings "marginY")
                         (JNum (of_Z 12)))) three_quarters))
  else (of_Z 0, of_Z 0).
End Settings.

(* ------------------------------------------------------------------ *)
(** ** The document the page holds, and the geometry pass *)

Module Dom.

(** An element selected by [[data-page-index]]: the attribute is present on
    each.  [sheet_marginBottom] is the computed bottom margin while no
    inline declaration is set. *)
Record element : Type := {
  data_page_index : string;
  offsetHeight : Z;
  sheet_marginBottom : string;
  style_marginBottom : option string;
  style_breakBefore : option string;
  style_breakInside : option string
}.

(** The document root or the preview container, as far as the custom
    property [--page-height] goes: its value from the style sheets (empty
    when undefined) and its inline declaration. *)
Record box : Type := {
  sheet_page_height : string;
  style_page_height : option string
}.

Record dom : Type := {
  root : box;
  container : option box;
  pageElements : list element
}.

(** [getComputedStyle (el).marginBottom]. *)
Definition computed_marginBottom (el : element) : string :=
  match style_marginBottom el with
  | Some v => v
  | None => sheet_marginBottom el
  end.

(** [getComputedStyle (b).getPropertyValue ("--page-height")]. *)
Definition computed_page_height (b : box) : string :=
  match style_page_height b with
  | Some v => v
  | None => sheet_page_height b
  end.

Definition set_page_height (v : string) (b : box) : box :=
  {| sheet_page_height := sheet_page_height b;
     style_page_height := Some v |}.

Definition set_breakBefore (v : string) (el : element) : element :=
  {| data_page_index := data_page_index el;
     offsetHeight := offsetHeight el;
     sheet_marginBottom := sheet_marginBottom el;
     style_marginBottom := style_marginBottom el;
     style_breakBefore := Some v;
     style_breakInside := style_breakInside el |}.

Definition set_breakInside (v : string) (el : element) : element :=
  {| data_page_index := data_page_index el;
     offsetHeight := offsetHeight el;
     sheet_marginBottom := sheet_marginBottom el;
     style_marginBottom := style_marginBottom el;
     style_breakBefore := style_breakBefore el;
     style_breakInside := Some v |}.

Section Pass.
Context {R : Runtime}.

(** The template literal of a number followed by px. *)
Definition px (n : number) : string := NumberToString n ++ "px".

(** [el.style.marginBottom = px n]; the text of NaN is no length, and the
    declaration stays as it was. *)
Definition set_marginBottom_px (n : number) (el : element) : element :=
  if isNaN n then el
  else
    {| data_page_index := data_page_index el;
       offsetHeight := offsetHeight el;
       sheet_marginBottom := sheet_marginBottom el;
       style_marginBottom := Some (px n);
       style_breakBefore := style_breakBefore el;
       style_breakInside := style_breakInside el |}.

(** The loop over [i < numberOfPages - 1]. *)
Fixpoint space_all_but_last (n : number) (l : list element)
  : list element :=
  match l with
  | [] => []
  | [x] => [x]
  | x :: r => set_marginBottom_px n x :: space_all_but_last n r
  end.

(** One round of the summing loop. *)
Definition add_height (totalHeight : number) (el : element) : number :=
  let marginBottom :=
    or_else (parseFloat (computed_marginBottom el)) (of_Z 0) in
  add totalHeight (add (of_Z (offsetHeight el)) marginBottom).

Definition total_height (l : list element) : number :=
  fold_left add_height l (of_Z 0).

(** The free-form branch. *)
Definition free_form_pass (marginY minPageHeight : number) (d : dom)
  : dom * option number :=
  let marginYAsPixels := mul marginY three_quarters in
  let els := space_all_but_last marginYAsPixels (pageElements d) in
  ({| root := root d; container := container d; pageElements := els |},
   Some (Math_max (total_height els) minPageHeight)).

(** [containerHeight || rootHeight]. *)
Definition current_height (d : dom) : string :=
  let rootHeight := trim (computed_page_height (root d)) in
  match container d with
  | Some c =>
      let containerHeight := trim (computed_page_height c) in
      if is_empty containerHeight then rootHeight else containerHeight
  | None => rootHeight
  end.

Definition height_value (minPageHeight : number) (d : dom) : number :=
  Math_max (parseFloat (current_height d)) minPageHeight.

(** One round of the loop over the page elements of the fixed formats. *)
Definition break_element (el : element) : element :=
  let index := parseInt10 (data_page_index el) in
  let el1 := if gtb index (of_Z 0) then set_breakBefore "page" el else el in
  set_breakInside "auto" el1.

(** The branch of a4 and letter. *)
Definition fixed_pass (marginY minPageHeight : number) (d : dom)
  : dom * option number :=
  let heightValue := height_value minPageHeight d in
  let '(root1, container1) :=
    if negb (isNaN heightValue) then
      let newHeight := px (sub heightValue marginY) in
      (set_page_height newHeight (root d),
       option_map (set_page_height newHeight) (container d))
    else (root d, container d) in
  ({| root := root1; container := container1;
      pageElements := map break_element (pageElements d) |},
   None).

(** The function handed to [page.evaluate]: the document after it, and
    its return value ([None] is null). *)
Definition geometry_pass (marginY : number) (isFreeForm : bool)
           (minPageHeight : number) (d : dom) : dom * option number :=
  if isFreeForm then free_form_pass marginY minPageHeight d
  else fixed_pass marginY minPageHeight d.
End Pass.

End Dom.
Export Dom.

(* ------------------------------------------------------------------ *)
(** ** The capture request *)

Record pdf_margin : Type := {
  m_bottom : number;
  m_top : number;
  m_right : number;
  m_left : number
}.

Record pdf_options : Type := {
  pdf_width : string;
  pdf_height : string;
  pdf_tagged : bool;
  pdf_waitForFonts : bool;
  pdf_printBackground : bool;
  pdf_margin_of : pdf_margin
}.

Section Capture.
Context {R : Runtime}.

(** [isFreeForm && contentHeight ? contentHeight : dimensions.height]. *)
Definition pdfHeight (isFreeForm : bool) (contentHeight : option number)
           (d : dimensions) : number :=
  match isFreeForm, contentHeight with
  | true, Some c => if truthy c then c else of_Z (height d)
  | _, _ => of_Z (height d)
  end.

Definition capture_options (d : dimensions) (height_px : number)
           (marginX marginY : number) : pdf_options :=
  {| pdf_width := px (of_Z (width d));
     pdf_height := px height_px;
     pdf_tagged := true;
     pdf_waitForFonts := true;
     pdf_printBackground := true;
     pdf_margin_of := {| m_bottom := of_Z 0; m_top := marginY;
                         m_right := marginX; m_left := marginX |} |}.
End Capture.

(* ------------------------------------------------------------------ *)
(** ** Effects: a trace of what the driver does, with exceptions and exit *)

Inductive server_event : Type :=
| Stdout (data : string)
| Stderr (data : string)
| ProcError (message : string)
| ProcExit (code : option Z).

(** The operations on the browser, the page and the disk that may throw. *)
Inductive step : Type :=
| StNewPage | StInject | StViewport | StGoto | StEvaluate | StPdf
| StPageClose | StWrite | StBrowserClose.

Inductive event : Type :=
| EvUsage
| EvLog (text : string)
| EvWarn (text : string)
| EvError (text : string)
| EvReadFile (path : string)
| EvSpawnServer (port : Z)
| EvServerExited (code : option Z)
| EvKillServer
| EvConnect (endpoint : string)
| EvLaunch (executablePath : string)
| EvNewPage
| EvInject (payload : jsval)
| EvSetViewport (d : dimensions)
| EvGoto (url : string)
| EvEvaluate (marginY : number) (isFreeForm : bool) (minPageHeight : number)
             (after : dom) (result : option number)
| EvPdf (o : pdf_options)
| EvPageClose
| EvWriteFile (path : string)
| EvBrowserClose.

Module Eff.

Inductive outcome (A : Type) : Type :=
| Ret (a : A)
| Throw (message : string)
| Exit (code : Z).
Arguments Ret {A} a.
Arguments Throw {A} message.
Arguments Exit {A} code.

(** A computation: the effects it performed, and how it ended. *)
Definition M (A : Type) : Type := list event * outcome A.

Definition ret {A} (a : A) : M A := ([], Ret a).
Definition emit (e : event) : M unit := ([e], Ret tt).
Definition throw {A} (message : string) : M A := ([], Throw message).
Definition exit {A} (code : Z) : M A := ([], Exit code).

Definition bind {A B} (m : M A) (k : A -> M B) : M B :=
  match m with
  | (t1, Ret a) => let '(t2, r) := k a in ((t1 ++ t2)%list, r)
  | (t1, Throw e) => (t1, Throw e)
  | (t1, Exit c) => (t1, Exit c)
  end.

(** [try { body } catch { handler }]: an exit of the process is not caught. *)
Definition try_catch {A} (body : M A) (handler : string -> M A) : M A :=
  match body with
  | (t1, Throw e) => let '(t2, r) := handler e in ((t1 ++ t2)%list, r)
  | other => other
  end.

(** [try { body } finally { fin }]: an exit of the process inside the body
    ends it there; an exception of [fin] replaces the outcome of the body. *)
Definition try_finally {A} (body : M A) (fin : M unit) : M A :=
  match body with
  | (t1, Exit c) => (t1, Exit c)
  | (t1, r) =>
      match fin with
      | (t2, Ret _) => ((t1 ++ t2)%list, r)
      | (t2, Throw e) => ((t1 ++ t2)%list, Throw e)
      | (t2, Exit c) => ((t1 ++ t2)%list, Exit c)
      end
  end.

End Eff.
Export Eff.

Declare Scope eff_scope.
Delimit Scope eff_scope with eff.
Notation "x <- c1 ;; c2" := (bind c1 (fun x => c2))
  (at level 61, c1 at next level, right associativity) : eff_scope.
Notation "c1 ;; c2" := (bind c1 (fun _ => c2))
  (at level 61, right associativity) : eff_scope.

(* ------------------------------------------------------------------ *)
(** ** The world outside the driver *)

Record world : Type := {
  (** [resolve] of node:path, for the current working directory *)
  w_resolve : string -> string;
  (** [readFileSync] then [JSON.parse]; [None] when either throws *)
  w_read_json : string -> option jsval;
  (** [process.env] and [process.platform] *)
  w_env : string -> option string;
  w_platform : string;
  (** [existsSync] *)
  w_exists : string -> bool;
  (** [Math.floor (Math.random () * 1000)] *)
  w_random : Z;
  (** what the spawned server emits within 60 s of its start, in order *)
  w_server_events : list server_event;
  (** the k-th [fetch] of the reachability poll: success, duration in ms *)
  w_fetch_ok : nat -> bool;
  w_fetch_ms : nat -> Z;
  (** the dynamic import, [puppeteer.connect] (with the parsing of the end
      point) and [puppeteer.launch] succeed *)
  w_import_ok : bool;
  w_connect_ok : bool;
  w_launch_ok : bool;
  (** the operations that throw *)
  w_fails : step -> bool;
  (** the font signal arrives within 10 s *)
  w_fonts_ready : bool;
  (** the document once the preview has loaded *)
  w_dom : dom
}.

(* ------------------------------------------------------------------ *)
(** ** System Chrome/Chromium detection *)

Definition env_or (w : world) (name default : string) : string :=
  match w_env w name with Some v => v | None => default end.

Definition candidates (w : world) : list string :=
  if String.eqb (w_platform w) "darwin" then
    [ "/Applications/Google Chrome.app/Contents/MacOS/Google Chrome";
      "/Applications/Chromium.app/Contents/MacOS/Chromium";
      "/Applications/Google Chrome Canary.app/Contents/MacOS/Google Chrome Canary";
      "/Applications/Brave Browser.app/Contents/MacOS/Brave Browser";
      "/Applications/Microsoft Edge.app/Contents/MacOS/Microsoft Edge" ]
  else if String.eqb (w_platform w) "linux" then
    [ "/usr/bin/google-chrome";
      "/usr/bin/google-chrome-stable";
      "/usr/bin/chromium";
      "/usr/bin/chromium-browser";
      "/snap/bin/chromium" ]
  else if String.eqb (w_platform w) "win32" then
    let programFiles := env_or w "PROGRAMFILES" "C:\Program Files" in
    let programFilesX86 :=
      env_or w "PROGRAMFILES(X86)" "C:\Program Files (x86)" in
    let localAppData := env_or w "LOCALAPPDATA" "" in
    [ programFiles ++ "\Google\Chrome\Application\chrome.exe";
      programFilesX86 ++ "\Google\Chrome\Application\chrome.exe";
      localAppData ++ "\Google\Chrome\Application\chrome.exe";
      programFiles ++ "\Microsoft\Edge\Application\msedge.exe" ]
  else [].

(** [process.env.CHROME_PATH && existsSync (process.env.CHROME_PATH)]. *)
Definition chrome_path_usable (w : world) : option string :=
  match w_env w "CHROME_PATH" with
  | Some p => if (negb (is_empty p) && w_exists w p)%bool then Some p else None
  | None => None
  end.

Definition findSystemChrome (w : world) : option string :=
  match chrome_path_usable w with
  | Some p => Some p
  | None => find (w_exists w) (candidates w)
  end.

(* ------------------------------------------------------------------ *)
(** ** Output path *)

(** The rest of [s] after the prefix [p]. *)
Fixpoint strip_prefix (p s : string) : option string :=
  match p, s with
  | EmptyString, _ => Some s
  | String a p', String b s' =>
      if Ascii.eqb a b then strip_prefix p' s' else None
  | String _ _, EmptyString => None
  end.

(** The pattern [\.json$] with the flag [i], tried at the head of [s]. *)
Definition json_ext_here (s : string) : bool :=
  String.eqb (lower_string s) ".json".

(** [s.replace (/\.json$/i, ".pdf")]: the leftmost match is replaced. *)
Fixpoint replace_json_ext (s : string) : string :=
  if json_ext_here s then ".pdf"
  else
    match s with
    | EmptyString => EmptyString
    | String c r => String c (replace_json_ext r)
    end.

Definition inputPath (w : world) (c : cli) : string :=
  w_resolve w (nth 0 (positionals c) "").

(** [resolve (positionals[1] ?? positionals[0].replace (...))]. *)
Definition outputPath (w : world) (c : cli) : string :=
  w_resolve w
    (match nth_error (positionals c) 1 with
     | Some p1 => p1
     | None => replace_json_ext (nth 0 (positionals c) "")
     end).

(* ------------------------------------------------------------------ *)
(** ** The rendering server *)

Module Server.

Definition starts_with_digit (s : string) : bool :=
  match s with
  | String c _ => is_digit c
  | EmptyString => false
  end.

(** The longest prefix of digits of [s]. *)
Fixpoint digits_prefix (s : string) : string :=
  match s with
  | String c r => if is_digit c then String c (digits_prefix r) else ""
  | EmptyString => ""
  end.

(** The rest of the pattern after the scheme: the fewest characters that are
    no white space, at least one ([n] counts those taken), then a colon and
    the digits after it. *)
Fixpoint host_port (s : string) (n : nat) : option string :=
  match s with
  | EmptyString => None
  | String c r =>
      if (negb (Nat.eqb n 0) && Ascii.eqb c ":" && starts_with_digit r)%bool
      then Some (String c (digits_prefix r))
      else if is_space c then None
      else match host_port r (S n) with
           | Some m => Some (String c m)
           | None => None
           end
  end.

(** The pattern [https?:\/\/[^\s]+?:\d+] tried at the head of [s]. *)
Definition url_here (s : string) : option string :=
  match strip_prefix "https://" s with
  | Some r => option_map (append "https://") (host_port r 0)
  | None =>
      match strip_prefix "http://" s with
      | Some r => option_map (append "http://") (host_port r 0)
      | None => None
      end
  end.

(** [output.match (...)]: the leftmost match. *)
Fixpoint find_url (s : string) : option string :=
  match url_here s with
  | Some m => Some m
  | None =>
      match s with
      | EmptyString => None
      | String _ r => find_url r
      end
  end.

Definition is_quote (c : ascii) : bool :=
  let n := nat_of_ascii c in (Nat.eqb n 34 || Nat.eqb n 39)%bool.

(** The global replace that deletes the single and the double quote
    characters from the match. *)
Fixpoint strip_quotes (s : string) : string :=
  match s with
  | EmptyString => EmptyString
  | String c r => if is_quote c then strip_quotes r else String c (strip_quotes r)
  end.

Local Open Scope eff_scope.

(** The handlers of the child, run on what it emits until the promise is
    settled; the timer of 60 s fires when nothing settled it. *)
Fixpoint server_loop (evs : list server_event) (output : string) : M string :=
  match evs with
  | [] => throw "Vite dev server failed to start within 60 seconds"
  | Stdout data :: r =>
      let output' := output ++ data in
      match find_url output' with
      | Some m => ret (strip_quotes m)
      | None => server_loop r output'
      end
  | Stderr data :: r => server_loop r (output ++ data)
  | ProcError message :: _ => throw message
  | ProcExit code :: r =>
      emit (EvServerExited code) ;;
      match code with
      | Some c =>
          if c =? 0 then server_loop r output
          else throw "Vite dev server exited with a non-zero code"
      | None => server_loop r output
      end
  end.

Definition startViteServer (w : world) (port : Z) : M string :=
  emit (EvSpawnServer port) ;;
  server_loop (w_server_events w) "".

(** The polling loop: [k] fetches done, [elapsed] ms since the start.  A
    failed round takes the time of its fetch and 300 ms more, so the loop
    has ended after [timeoutMs / 300 + 1] rounds.  The clock is an ideal
    one: the few milliseconds that the timers and the scheduler add to a
    round are not counted, so which fetch is the last one before the
    timeout is modelled up to that. *)
Fixpoint poll (w : world) (rounds k : nat) (elapsed timeoutMs : Z) : bool :=
  match rounds with
  | O => false
  | S n =>
      if elapsed <? timeoutMs then
        if w_fetch_ok w k then true
        else poll w n (S k) (elapsed + Z.max 0 (w_fetch_ms w k) + 300) timeoutMs
      else false
  end.

Definition waitForServer (w : world) (url : string) (timeoutMs : Z) : M unit :=
  if poll w (Z.to_nat (timeoutMs / 300) + 1) 0 0 timeoutMs then ret tt
  else throw ("Server at " ++ url ++ " not reachable").

End Server.
Export Server.

(* ------------------------------------------------------------------ *)
(** ** Main *)

Section Driver.
Context {R : Runtime}.
Variable w : world.

Local Open Scope eff_scope.

(** An operation that performs [e], or throws. *)
Definition perform (s : step) (e : event) : M unit :=
  if w_fails w s then throw "operation failed" else emit e.

(** The line feed that opens the last message of a run. *)
Definition line_feed : string := String (ascii_of_nat 10) "".

Definition chrome_not_found : string :=
  "Error: Could not find Chrome/Chromium on your system.".

(** The branch that launches the Chrome of the system. *)
Definition launch_local : M unit :=
  match findSystemChrome w with
  | None =>
      emit (EvError chrome_not_found) ;;
      emit EvKillServer ;;
      exit 1
  | Some chromePath =>
      emit (EvLog ("Launching Chrome: " ++ chromePath)) ;;
      if w_launch_ok w then emit (EvLaunch chromePath)
      else throw "launch failed"
  end.

(** The browser: connected to when PRINTER_ENDPOINT is set (and not the
    empty string), launched from the system otherwise. *)
Definition acquire_browser : M unit :=
  match w_env w "PRINTER_ENDPOINT" with
  | Some printerEndpoint =>
      if negb (is_empty printerEndpoint) then
        emit (EvLog ("Connecting to browser at " ++ printerEndpoint ++ "...")) ;;
        if w_connect_ok w then emit (EvConnect printerEndpoint)
        else throw "connect failed"
      else launch_local
  | None => launch_local
  end.

(** The body of the [try] from the navigation on, for the dimensions of
    the format. *)
Definition render_page (dimensions : dimensions) (template format : string)
           (pageSettings : jsval) (serverUrl out : string) : M unit :=
  emit (EvLog "Loading preview...") ;;
  perform StGoto (EvGoto serverUrl) ;;
  (if w_fonts_ready w then ret tt
   else emit (EvWarn "Warning: Font loading signal not detected, proceeding anyway...")) ;;
  let '(marginX, marginY) := compute_margins template pageSettings in
  let isFreeForm := String.eqb format "free-form" in
  let '(after, contentHeight) :=
    geometry_pass marginY isFreeForm (of_Z (height dimensions)) (w_dom w) in
  perform StEvaluate
    (EvEvaluate marginY isFreeForm (of_Z (height dimensions))
       after contentHeight) ;;
  let pdfHeight := pdfHeight isFreeForm contentHeight dimensions in
  emit (EvLog "Generating PDF...") ;;
  perform StPdf (EvPdf (capture_options dimensions pdfHeight marginX marginY)) ;;
  perform StPageClose EvPageClose ;;
  perform StWrite (EvWriteFile out) ;;
  emit (EvLog (line_feed ++ "PDF saved to: " ++ out)).

(** The body of the [try].  (The payload reaches the page as its JSON
    text; the event carries the value that is serialised.)  The browser
    refuses a viewport that has neither a width nor a height: the call
    throws. *)
Definition render (resumeData : jsval) (template format : string)
           (pageSettings : jsval) (serverUrl out : string) : M unit :=
  perform StNewPage EvNewPage ;;
  perform StInject (EvInject resumeData) ;;
  match dimensions_of format with
  | None => throw "viewport without width and height"
  | Some dimensions =>
      perform StViewport (EvSetViewport dimensions) ;;
      render_page dimensions template format pageSettings serverUrl out
  end.

Definition main (resumeData : jsval) (template format : string)
           (pageSettings : jsval) (out : string) : M unit :=
  let port := 15173 + w_random w in
  emit (EvLog "Starting Vite dev server...") ;;
  serverUrl <- startViteServer w port ;;
  emit (EvLog ("Vite server running at " ++ serverUrl)) ;;
  waitForServer w serverUrl 15000 ;;
  (if w_import_ok w then ret tt else throw "Cannot find package puppeteer-core") ;;
  acquire_browser ;;
  try_finally
    (render resumeData template format pageSettings serverUrl out)
    (perform StBrowserClose EvBrowserClose ;; emit EvKillServer).

(** The module from its first statement to the settling of [main ()]. *)
Definition script (c : cli) : M unit :=
  if (opt_help c || Nat.eqb (List.length (positionals c)) 0)%bool then
    emit EvUsage ;;
    exit (if opt_help c then 0 else 1)
  else
    let inp := inputPath w c in
    let out := outputPath w c in
    if (supplied (opt_template c)
        && negb (includes VALID_TEMPLATES
                   (match opt_template c with Some t => t | None => "" end)))%bool
    then emit (EvError "Error: Invalid template") ;; exit 1
    else if (supplied (opt_format c)
             && negb (includes VALID_FORMATS
                        (match opt_format c with Some f => f | None => "" end)))%bool
    then emit (EvError "Error: Invalid format") ;; exit 1
    else
      emit (EvLog ("Reading: " ++ inp)) ;;
      emit (EvReadFile inp) ;;
      match w_read_json w inp with
      | None => emit (EvError "Error: Failed to read or parse") ;; exit 1
      | Some parsed =>
          match apply_overrides c parsed with
          | None => throw "TypeError"
          | Some resumeData =>
              let template := effective_template resumeData in
              let pageSettings := pageSettings_of resumeData in
              let format := effective_format resumeData in
              emit (EvLog ("Template: " ++ template ++ ", Format: " ++ format)) ;;
              try_catch (main resumeData template format pageSettings out)
                (fun _ => emit (EvError "Fatal error:") ;; exit 1)
          end
      end.

(** The effects of an invocation and the exit code of the process. *)
Definition run (c : cli) : list event * Z :=
  let '(t, r) := script c in
  (t, match r with
      | Ret _ => 0
      | Throw _ => 1
      | Exit code => code
      end).
End Driver.

(* ------------------------------------------------------------------ *)
(** ** Sample inputs *)

Module Sample.

Definition page_settings (format : string) (mx my : Z) : jsval :=
  JObj [ ("format", JStr format);
         ("marginX", JNum (of_Z mx));
         ("marginY", JNum (of_Z my)) ].

Definition payload (template format : string) (mx my : Z) : jsval :=
  JObj [ ("basics", JObj [ ("name", JStr "Ada") ]);
         ("metadata", JObj [ ("template", JStr template);
                             ("page", page_settings format mx my) ]) ].

Definition page_element (index : string) (h : Z) : element :=
  {| data_page_index := index;
     offsetHeight := h;
     sheet_marginBottom := "0px";
     style_marginBottom := None;
     style_breakBefore := None;
     style_breakInside := None |}.

Definition plain_box (v : string) : box :=
  {| sheet_page_height := v; style_page_height := None |}.

(** A document of two pages of a fixed format. *)
Definition fixed_dom : dom :=
  {| root := plain_box "1123px";
     container := Some (plain_box " 1123px");
     pageElements := [ page_element "0" 1123; page_element "1" 1123 ] |}.

(** A document whose container and root define different page heights,
    both above the minimum. *)
Definition tall_dom : dom :=
  {| root := plain_box "1300px";
     container := Some (plain_box " 1200px ");
     pageElements := [ page_element "0" 1200; page_element "1" 1200 ] |}.

(** A document whose container defines no page height (its value is white
    space) and whose root defines one below the minimum. *)
Definition blank_container_dom : dom :=
  {| root := plain_box "900px";
     container := Some (plain_box "  ");
     pageElements := [ page_element "0" 900 ] |}.

(** The same document where no style sheet defines the page height. *)
Definition bare_dom : dom :=
  {| root := plain_box "";
     container := None;
     pageElements := [ page_element "0" 1123; page_element "1" 1123 ] |}.

(** Three page elements of heights 500, 600 and 400. *)
Definition free_dom : dom :=
  {| root := plain_box "1123px";
     container := Some (plain_box "1123px");
     pageElements := [ page_element "0" 500; page_element "1" 600;
                       page_element "2" 400 ] |}.

(** A Linux machine: what the server emits, the one browser binary on its
    disk, and the operations that throw. *)
Definition machine (data : jsval) (d : dom) (emitted : list server_event)
           (browser : string) (fails : step -> bool) : world :=
  {| w_resolve := fun p => "/work/" ++ p;
     w_read_json := fun _ => Some data;
     w_env := fun _ => None;
     w_platform := "linux";
     w_exists := String.eqb browser;
     w_random := 7;
     w_server_events := emitted;
     w_fetch_ok := fun k => Nat.leb 2 k;
     w_fetch_ms := fun _ => 5;
     w_import_ok := true;
     w_connect_ok := true;
     w_launch_ok := true;
     w_fails := fails;
     w_fonts_ready := true;
     w_dom := d |}.

Definition ready_server : list server_event :=
  [ Stderr "warming up"; Stdout "  Local:   http://127.0.0.1:15180/" ].

(** A machine with a Chromium, a server that reports its address, and a
    browser where nothing fails. *)
Definition good_world (data : jsval) (d : dom) : world :=
  machine data d ready_server "/usr/bin/chromium" (fun _ => false).

(** The same machine with a server that never reports an address. *)
Definition silent_server_world (data : jsval) (d : dom) : world :=
  machine data d [ Stderr "warming up" ] "/usr/bin/chromium" (fun _ => false).

(** The same machine without a browser on its disk. *)
Definition no_browser_world (data : jsval) (d : dom) : world :=
  machine data d ready_server "/nowhere" (fun _ => false).

(** The same machine where closing the browser throws. *)
Definition close_fails_world (data : jsval) (d : dom) : world :=
  machine data d ready_server "/usr/bin/chromium"
    (fun s => match s with StBrowserClose => true | _ => false end).

(** A machine whose CHROME_PATH names a file that is not there. *)
Definition stale_override_world : world :=
  {| w_resolve := fun p => p;
     w_read_json := fun _ => None;
     w_env := fun name =>
                if String.eqb name "CHROME_PATH" then Some "/opt/chrome"
                else None;
     w_platform := "linux";
     w_exists := String.eqb "/usr/bin/chromium";
     w_random := 0;
     w_server_events := [];
     w_fetch_ok := fun _ => true;
     w_fetch_ms := fun _ => 0;
     w_import_ok := true;
     w_connect_ok := true;
     w_launch_ok := true;
     w_fails := fun _ => false;
     w_fonts_ready := true;
     w_dom := fixed_dom |}.

Definition plain_cli (input : string) : cli :=
  {| opt_template := None; opt_format := None; opt_help := false;
     positionals := [ input ] |}.

(** The invocation with both overrides. *)
Definition override_cli (input template format : string) : cli :=
  {| opt_template := Some template; opt_format := Some format;
     opt_help := false; positionals := [ input ] |}.




(** The capture request of an a4 run with a print-margin template and raw
    margins 14 and 12. *)
Definition a4_capture : pdf_options :=
  {| pdf_width := "794px";
     pdf_height := "1123px";
     pdf_tagged := true;
     pdf_waitForFonts := true;
     pdf_printBackground := true;
     pdf_margin_of := {| m_bottom := of_Z 0; m_top := of_Z 16;
                         m_right := of_Z 19; m_left := of_Z 19 |} |}.

(** The a4 run of the onyx template on the good machine. *)
Definition a4_world : world := good_world (payload "onyx" "a4" 14 12) fixed_dom.

(** The letter run of the onyx template on the good machine. *)
Definition letter_world : world :=
  good_world (payload "onyx" "letter" 14 12) fixed_dom.

(** The a4 run on the document with the two different page heights. *)
Definition tall_world : world :=
  good_world (payload "onyx" "a4" 14 12) tall_dom.

(** The letter run on the document with the blank container. *)
Definition blank_letter_world : world :=
  good_world (payload "onyx" "letter" 14 12) blank_container_dom.

(** The free-form run of a template on the good machine, with the three
    page elements. *)
Definition free_world (template : string) : world :=
  good_world (payload template "free-form" 14 12) free_dom.

(** The same run on another day: another port, another address of the
    server, another name of the input file, fonts that never signal. *)
Definition a4_world_again : world :=
  {| w_resolve := fun p => "/tmp/" ++ p;
     w_read_json := fun _ => Some (payload "onyx" "a4" 14 12);
     w_env := fun _ => None;
     w_platform := "linux";
     w_exists := String.eqb "/usr/bin/google-chrome";
     w_random := 512;
     w_server_events := [ Stdout "http://localhost:15685" ];
     w_fetch_ok := fun _ => true;
     w_fetch_ms := fun _ => 40;
     w_import_ok := true;
     w_connect_ok := true;
     w_launch_ok := true;
     w_fails := fun _ => false;
     w_fonts_ready := false;
     w_dom := fixed_dom |}.

(** The a4 run on a document where no style sheet defines the page
    height. *)
Definition bare_world : world := good_world (payload "onyx" "a4" 14 12) bare_dom.

(** The documents after the pass, for the vertical margin 16. *)
Definition bare_after : dom :=
  fst (geometry_pass (of_Z 16) false (of_Z 1123) bare_dom).

Definition free_after : dom :=
  fst (geometry_pass (of_Z 16) true (of_Z 1123) free_dom).

End Sample.

(* ------------------------------------------------------------------ *)
(** ** Summaries used in the statements *)

(** The server process at the end of a trace: started, and neither killed
    by the driver nor ended by itself. *)
Fixpoint server_running (t : list event) (running : bool) : bool :=
  match t with
  | [] => running
  | EvSpawnServer _ :: r => server_running r true
  | EvKillServer :: r => server_running r false
  | EvServerExited _ :: r => server_running r false
  | _ :: r => server_running r running
  end.

(** The computation does not end the process. *)
Definition no_exit {A : Type} (m : M A) : Prop :=
  forall code, snd m <> Exit code.

Definition is_write (e : event) : bool :=
  match e with EvWriteFile _ => true | _ => false end.

(** A server or a browser process is asked for. *)
Definition is_process_event (e : event) : bool :=
  match e with
  | EvSpawnServer _ | EvConnect _ | EvLaunch _ => true
  | _ => false
  end.

Definition is_evaluate (e : event) : bool :=
  match e with EvEvaluate _ _ _ _ _ => true | _ => false end.


(** The payload after the merge, for an invocation that gets that far. *)
Definition settings_of (w : world) (c : cli) : option jsval :=
  match w_read_json w (inputPath w c) with
  | Some parsed => apply_overrides c parsed
  | None => None
  end.

Section Summaries.
Context {R : Runtime}.

Definition raw_marginX (pageSettings : jsval) : number :=
  ToNumber (coalesce (opt_member pageSettings "marginX") (JNum (of_Z 14))).

Definition raw_marginY (pageSettings : jsval) : number :=
  ToNumber (coalesce (opt_member pageSettings "marginY") (JNum (of_Z 12))).

(** The content height the free-form branch measures. *)
Definition content_height (marginY : number) (d : dom) : number :=
  total_height
    (space_all_but_last (mul marginY three_quarters) (pageElements d)).

(** What [render] hands to [page.evaluate] and gets back. *)
Definition evaluate_event (dims : dimensions) (template format : string)
           (pageSettings : jsval) (d : dom) : event :=
  let marginY := snd (compute_margins template pageSettings) in
  let isFreeForm := String.eqb format "free-form" in
  let minPageHeight := of_Z (height dims) in
  let r := geometry_pass marginY isFreeForm minPageHeight d in
  EvEvaluate marginY isFreeForm minPageHeight (fst r) (snd r).

(** What [render] hands to [page.pdf]. *)
Definition capture_request (dims : dimensions) (template format : string)
           (pageSettings : jsval) (d : dom) : pdf_options :=
  let m := compute_margins template pageSettings in
  let isFreeForm := String.eqb format "free-form" in
  let r := geometry_pass (snd m) isFreeForm (of_Z (height dims)) d in
  capture_options dims (pdfHeight isFreeForm (snd r) dims) (fst m) (snd m).

(** What an event of the trace of [run w c] has to be. *)
Definition expected (w : world) (c : cli) (e : event) : Prop :=
  match e with
  | EvReadFile p => p = inputPath w c
  | EvWriteFile p => p = outputPath w c
  | EvInject v => settings_of w c = Some v
  | EvSetViewport dims =>
      exists rd, settings_of w c = Some rd /\
        dimensions_of (effective_format rd) = Some dims
  | EvEvaluate _ _ _ _ _ =>
      exists rd dims, settings_of w c = Some rd /\
        dimensions_of (effective_format rd) = Some dims /\
        e = evaluate_event dims (effective_template rd) (effective_format rd)
              (pageSettings_of rd) (w_dom w)
  | EvPdf o =>
      exists rd dims, settings_of w c = Some rd /\
        dimensions_of (effective_format rd) = Some dims /\
        o = capture_request dims (effective_template rd) (effective_format rd)
              (pageSettings_of rd) (w_dom w)
  | _ => True
  end.
End Summaries.

(* ------------------------------------------------------------------ *)
(** ** Further summaries *)

(** Every character of [s] satisfies [p]. *)
Fixpoint all_chars (p : ascii -> bool) (s : string) : bool :=
  match s with
  | EmptyString => true
  | String c r => (p c && all_chars p r)%bool
  end.

Definition not_space (c : ascii) : bool := negb (is_space c).
Definition not_quote (c : ascii) : bool := negb (is_quote c).

(** What the child has written, to either stream, in order. *)
Fixpoint emitted_text (evs : list server_event) : string :=
  match evs with
  | [] => ""
  | Stdout data :: r => data ++ emitted_text r
  | Stderr data :: r => data ++ emitted_text r
  | _ :: r => emitted_text r
  end.

(** An end of the child with code 0 or by a signal. *)
Definition is_clean_exit (e : server_event) : bool :=
  match e with
  | ProcExit None => true
  | ProcExit (Some code) => code =? 0
  | _ => false
  end.

Definition drop_clean_exits (evs : list server_event) : list server_event :=
  filter (fun e => negb (is_clean_exit e)) evs.

(** An option value as the driver takes it: an empty one counts as not
    given. *)
Definition drop_empty (o : option string) : option string :=
  if supplied o then o else None.

Definition without_empty_overrides (c : cli) : cli :=
  {| opt_template := drop_empty (opt_template c);
     opt_format := drop_empty (opt_format c);
     opt_help := opt_help c;
     positionals := positionals c |}.

(** Every exit of the process that the computation makes has a code in
    [P]. *)
Definition exits_in {A : Type} (P : Z -> Prop) (m : M A) : Prop :=
  forall code, snd m = Exit code -> P code.

(** The place of an operation on the page, or on the output file, in the
    order in which [render] lists them. *)
Definition page_kind (e : event) : option nat :=
  match e with
  | EvNewPage => Some 0%nat
  | EvInject _ => Some 1%nat
  | EvSetViewport _ => Some 2%nat
  | EvGoto _ => Some 3%nat
  | EvEvaluate _ _ _ _ _ => Some 4%nat
  | EvPdf _ => Some 5%nat
  | EvPageClose => Some 6%nat
  | EvWriteFile _ => Some 7%nat
  | _ => None
  end.

Definition page_kinds (t : list event) : list nat :=
  flat_map (fun e => match page_kind e with
                     | Some k => [k]
                     | None => []
                     end) t.

Definition is_warn (e : event) : bool :=
  match e with EvWarn _ => true | _ => false end.

Definition without_warnings (t : list event) : list event :=
  filter (fun e => negb (is_warn e)) t.

(** The same world where the font signal arrives, or does not. *)
Definition set_fonts (b : bool) (w : world) : world :=
  {| w_resolve := w_resolve w;
     w_read_json := w_read_json w;
     w_env := w_env w;
     w_platform := w_platform w;
     w_exists := w_exists w;
     w_random := w_random w;
     w_server_events := w_server_events w;
     w_fetch_ok := w_fetch_ok w;
     w_fetch_ms := w_fetch_ms w;
     w_import_ok := w_import_ok w;
     w_connect_ok := w_connect_ok w;
     w_launch_ok := w_launch_ok w;
     w_fails := w_fails w;
     w_fonts_ready := b;
     w_dom := w_dom w |}.

(** Two computations that end alike and do the same but for warnings. *)
Definition same_but_warnings {A : Type} (m1 m2 : M A) : Prop :=
  snd m1 = snd m2 /\
  without_warnings (fst m1) = without_warnings (fst m2).

(** What an event about a process or a navigation says of the world. *)
Definition process_expected (w : world) (e : event) : Prop :=
  match e with
  | EvSpawnServer port => port = 15173 + w_random w
  | EvConnect endpoint =>
      w_env w "PRINTER_ENDPOINT" = Some endpoint /\ endpoint <> "" /\
      w_connect_ok w = true
  | EvLaunch path =>
      (forall endpoint, w_env w "PRINTER_ENDPOINT" = Some endpoint ->
                        endpoint = "") /\
      findSystemChrome w = Some path /\
      w_launch_ok w = true
  | EvGoto url =>
      snd (startViteServer w (15173 + w_random w)) = Ret url /\
      snd (waitForServer w url 15000) = Ret tt /\
      w_import_ok w = true
  | _ => True
  end.

(** The page operations of a trace are the first [n] of the eight, for
    some [n]. *)
Definition in_order (t : list event) : Prop :=
  exists n, (n <= 8)%nat /\ page_kinds t = seq 0 n.

(** A browser is connected to or launched. *)
Definition is_acquire (e : event) : bool :=
  match e with
  | EvConnect _ | EvLaunch _ => true
  | _ => false
  end.

(** The browser at the end of a trace: acquired and not closed. *)
Fixpoint browser_open (t : list event) (open : bool) : bool :=
  match t with
  | [] => open
  | EvConnect _ :: r => browser_open r true
  | EvLaunch _ :: r => browser_open r true
  | EvBrowserClose :: r => browser_open r false
  | _ :: r => browser_open r open
  end.

(** Console output: it changes nothing of the session. *)
Definition is_console (e : event) : bool :=
  match e with
  | EvLog _ | EvWarn _ | EvError _ | EvUsage => true
  | _ => false
  end.

(** A trace in which a browser was acquired ends with the browser closed
    and the server not running. *)
Definition released (t : list event) : Prop :=
  existsb is_acquire t = true ->
  forall b1 b2, server_running t b1 = false /\ browser_open t b2 = false.

(* ================================================================== *)
(** * Properties *)

(** ** Strings and membership *)

Lemma includes_In (l : list string) (s : string) :
  includes l s = true <-> In s l.
Proof.
  unfold includes. rewrite existsb_exists. split.
  - intros [x [Hin Heq]]. apply String.eqb_eq in Heq. now subst.
  - intros Hin. exists s. split; [assumption | apply String.eqb_refl].
Qed.

Lemma includes_not_In (l : list string) (s : string) :
  includes l s = false <-> ~ In s l.
Proof.
  rewrite <- includes_In. destruct (includes l s); split; intros H;
    congruence.
Qed.

(** ** The conversions and the patterns on examples *)

Example parseFloat_px : Decimal.parseFloat "1123px" = of_Z 1123.
Proof. reflexivity. Qed.

Example parseFloat_fraction : Decimal.parseFloat "  -12.50em" = Num (-25 # 2).
Proof. reflexivity. Qed.

Example parseFloat_empty : Decimal.parseFloat "" = NaN.
Proof. reflexivity. Qed.

Example parseFloat_auto : Decimal.parseFloat "auto" = NaN.
Proof. reflexivity. Qed.

Example parseInt10_index : Decimal.parseInt10 "2" = of_Z 2.
Proof. reflexivity. Qed.

Example NumberToString_quarter : Decimal.NumberToString (Num (57 # 4)) = "14.25".
Proof. reflexivity. Qed.

Example NumberToString_integer : Decimal.NumberToString (of_Z 1107) = "1107".
Proof. reflexivity. Qed.

Example round_14 : Math_round (div (of_Z 14) three_quarters) = of_Z 19.
Proof. reflexivity. Qed.

Example round_12 : Math_round (div (of_Z 12) three_quarters) = of_Z 16.
Proof. reflexivity. Qed.

Example round_half_up : Math_round (Num (5 # 2)) = of_Z 3.
Proof. reflexivity. Qed.

Example round_half_up_negative : Math_round (Num (-5 # 2)) = of_Z (-2).
Proof. reflexivity. Qed.

Example find_url_vite :
  find_url "  Local:   http://127.0.0.1:15180/" = Some "http://127.0.0.1:15180".
Proof. reflexivity. Qed.

Example find_url_lazy : find_url "see https://a:b:80/x" = Some "https://a:b:80".
Proof. reflexivity. Qed.

Example find_url_none : find_url "ready in 300 ms" = None.
Proof. reflexivity. Qed.

Example replace_json_ext_last : replace_json_ext "a.json.JSON" = "a.json.pdf".
Proof. reflexivity. Qed.

Example replace_json_ext_inner : replace_json_ext "a.json.bak" = "a.json.bak".
Proof. reflexivity. Qed.

Example trim_both : trim "  1123px " = "1123px".
Proof. reflexivity. Qed.

Example dimensions_of_letter : dimensions_of "letter" = Some dim_letter.
Proof. reflexivity. Qed.

Example dimensions_of_unknown : dimensions_of "legal" = Some dim_a4.
Proof. reflexivity. Qed.

Example dimensions_of_inherited : dimensions_of "constructor" = None.
Proof. reflexivity. Qed.

(** A payload whose format names an inherited property of the table: the
    viewport call throws after the payload is registered, the browser is
    closed and the server killed, and the run ends with exit code 1. *)
Example inherited_format_run :
  run (R := decimal_runtime)
    (Sample.good_world (Sample.payload "onyx" "constructor" 14 12)
       Sample.fixed_dom)
    (Sample.plain_cli "cv.json")
  = ([ EvLog "Reading: /work/cv.json";
       EvReadFile "/work/cv.json";
       EvLog "Template: onyx, Format: constructor";
       EvLog "Starting Vite dev server...";
       EvSpawnServer 15180;
       EvLog "Vite server running at http://127.0.0.1:15180";
       EvLog "Launching Chrome: /usr/bin/chromium";
       EvLaunch "/usr/bin/chromium";
       EvNewPage;
       EvInject (Sample.payload "onyx" "constructor" 14 12);
       EvBrowserClose;
       EvKillServer;
       EvError "Fatal error:" ], 1).
Proof. reflexivity. Qed.

(** ** Traces *)

Section TraceLemmas.
Variable P : event -> Prop.

Lemma Forall_bind {A B} (m : M A) (k : A -> M B) :
  Forall P (fst m) ->
  (forall a, snd m = Ret a -> Forall P (fst (k a))) ->
  Forall P (fst (bind m k)).
Proof.
  destruct m as [t1 [a | e | code]]; simpl; intros H1 H2; try assumption.
  specialize (H2 a eq_refl). destruct (k a) as [t2 r]. simpl in *.
  apply Forall_app. now split.
Qed.

Lemma Forall_try_catch {A} (body : M A) (handler : string -> M A) :
  Forall P (fst body) ->
  (forall e, Forall P (fst (handler e))) ->
  Forall P (fst (try_catch body handler)).
Proof.
  destruct body as [t1 [a | e | code]]; simpl; intros H1 H2; try assumption.
  specialize (H2 e). destruct (handler e) as [t2 r]. simpl in *.
  apply Forall_app. now split.
Qed.

Lemma Forall_try_finally {A} (body : M A) (fin : M unit) :
  Forall P (fst body) ->
  Forall P (fst fin) ->
  Forall P (fst (try_finally body fin)).
Proof.
  destruct body as [t1 [a | e | code]], fin as [t2 [u | e' | code']];
    simpl; intros H1 H2; try assumption; apply Forall_app; now split.
Qed.

Lemma Forall_emit (e : event) : P e -> Forall P (fst (emit e)).
Proof. intros H. simpl. now constructor. Qed.

Lemma Forall_perform (w : world) (s : step) (e : event) :
  P e -> Forall P (fst (perform w s e)).
Proof.
  intros H. unfold perform. destruct (w_fails w s); simpl; auto.
Qed.

Lemma Forall_server_loop (evs : list server_event) (output : string) :
  (forall code, P (EvServerExited code)) ->
  Forall P (fst (server_loop evs output)).
Proof.
  intros HP. revert output.
  induction evs as [| [data | data | message | code] r IH]; intros output;
    cbn [server_loop].
  - simpl. constructor.
  - destruct (find_url (output ++ data)); [simpl; constructor | apply IH].
  - apply IH.
  - simpl. constructor.
  - apply Forall_bind; [apply Forall_emit, HP |].
    intros _ _. destruct code as [z |]; [destruct (z =? 0) |];
      try apply IH. simpl. constructor.
Qed.
End TraceLemmas.

Ltac trace_step :=
  match goal with
  | |- Forall _ (fst (bind _ _)) => apply Forall_bind; [| intros ? ?]
  | |- Forall _ (fst (try_catch _ _)) => apply Forall_try_catch; [| intros ?]
  | |- Forall _ (fst (try_finally _ _)) => apply Forall_try_finally
  | |- Forall _ (fst (emit _)) => apply Forall_emit; simpl
  | |- Forall _ (fst (perform _ _ _)) => apply Forall_perform; simpl
  | |- Forall _ (fst (ret _)) => constructor
  | |- Forall _ (fst (throw _)) => constructor
  | |- Forall _ (fst (exit _)) => constructor
  | |- Forall _ (fst (if ?b then _ else _)) => destruct b eqn:?
  | |- Forall _ (fst (match ?x with _ => _ end)) => destruct x eqn:?
  | |- True => exact I
  end.

Section RunLemmas.
Context {R : Runtime}.
Variable w : world.

Lemma render_page_expected (c : cli) (rd : jsval) (dims : dimensions)
      (serverUrl : string) :
  settings_of w c = Some rd ->
  dimensions_of (effective_format rd) = Some dims ->
  Forall (expected w c)
    (fst (render_page w dims (effective_template rd) (effective_format rd)
            (pageSettings_of rd) serverUrl (outputPath w c))).
Proof.
  intros Hrd Hdims. unfold render_page.
  repeat trace_step; auto.
  - exists rd, dims. split; [assumption |]. split; [assumption |].
    unfold evaluate_event. cbv zeta. rewrite Heqp. cbn [snd].
    rewrite Heqp0. reflexivity.
  - exists rd, dims. split; [assumption |]. split; [assumption |].
    unfold capture_request. cbv zeta. rewrite Heqp. cbn [fst snd].
    rewrite Heqp0. reflexivity.
Qed.

Lemma render_expected (c : cli) (rd : jsval) (serverUrl : string) :
  settings_of w c = Some rd ->
  Forall (expected w c)
    (fst (render w rd (effective_template rd) (effective_format rd)
            (pageSettings_of rd) serverUrl (outputPath w c))).
Proof.
  intros Hrd. unfold render.
  repeat first
    [ apply render_page_expected; assumption
    | trace_step ]; eauto.
Qed.

Lemma main_expected (c : cli) (rd : jsval) :
  settings_of w c = Some rd ->
  Forall (expected w c)
    (fst (main w rd (effective_template rd) (effective_format rd)
            (pageSettings_of rd) (outputPath w c))).
Proof.
  intros Hrd. unfold main, startViteServer, waitForServer, acquire_browser,
    launch_local.
  repeat first
    [ apply render_expected; assumption
    | apply Forall_server_loop; intros; exact I
    | trace_step ].
Qed.

Lemma script_expected (c : cli) : Forall (expected w c) (fst (script w c)).
Proof.
  unfold script.
  repeat first
    [ apply main_expected; unfold settings_of;
      match goal with H : w_read_json _ _ = _ |- _ => rewrite H end;
      assumption
    | trace_step ]; reflexivity.
Qed.

Lemma run_expected (c : cli) (e : event) :
  In e (fst (run w c)) -> expected w c e.
Proof.
  intros H. unfold run in H.
  pose proof (script_expected c) as HF.
  destruct (script w c) as [t r]. simpl in *.
  rewrite Forall_forall in HF. now apply HF.
Qed.
End RunLemmas.

(* ------------------------------------------------------------------ *)
(** ** Browser detection *)

Lemma find_none_Forall {A} (f : A -> bool) (l : list A) :
  find f l = None <-> Forall (fun x => f x = false) l.
Proof.
  induction l as [| x l IH]; simpl.
  - split; auto.
  - destruct (f x) eqn:E; split; intros H.
    + discriminate.
    + inversion H; congruence.
    + constructor; [assumption | now apply IH].
    + inversion H; now apply IH.
Qed.

(** C9.  A CHROME_PATH that names no existing file is passed over without
    a word: the result is then the first platform candidate that exists.
    The detection answers null exactly when the override (if one is set
    and not empty) is absent from the disk and so is every candidate of the
    platform. *)
Theorem C9_chrome_detection (w : world) :
  (forall p, w_env w "CHROME_PATH" = Some p -> w_exists w p = false ->
             findSystemChrome w = find (w_exists w) (candidates w)) /\
  (findSystemChrome w = None <->
   (forall p, w_env w "CHROME_PATH" = Some p -> p <> "" ->
              w_exists w p = false) /\
   Forall (fun cand => w_exists w cand = false) (candidates w)).
Proof.
  unfold findSystemChrome, chrome_path_usable. split.
  - intros p Hp Hex. rewrite Hp, Hex, andb_false_r. reflexivity.
  - destruct (w_env w "CHROME_PATH") as [p |] eqn:Hp.
    + destruct p as [| a p']; simpl.
      * rewrite find_none_Forall. split; [intros H | intros [_ H]]; auto.
        split; [| assumption]. intros p Hq Hne. congruence.
      * destruct (w_exists w (String a p')) eqn:Hex.
        -- split; [discriminate |]. intros [H _].
           specialize (H _ eq_refl). rewrite Hex in H.
           exfalso. apply Bool.diff_true_false. apply H. discriminate.
        -- rewrite find_none_Forall. split; [intros H | intros [_ H]]; auto.
           split; [| assumption]. intros q Hq _. congruence.
    + rewrite find_none_Forall. split; [intros H | intros [_ H]]; auto.
      split; [| assumption]. intros p Hq. discriminate.
Qed.

Lemma C9_chrome_detection_witness :
  w_env Sample.stale_override_world "CHROME_PATH" = Some "/opt/chrome" /\
  w_exists Sample.stale_override_world "/opt/chrome" = false /\
  findSystemChrome Sample.stale_override_world = Some "/usr/bin/chromium".
Proof.
  split; [reflexivity | split; [reflexivity |]].
  rewrite (proj1 (C9_chrome_detection Sample.stale_override_world)
             "/opt/chrome" eq_refl eq_refl).
  reflexivity.
Defined.

(* ------------------------------------------------------------------ *)
(** ** Output path *)

Lemma lower_string_length (s : string) :
  String.length (lower_string s) = String.length s.
Proof. induction s; simpl; congruence. Qed.

Lemma append_length (a b : string) :
  String.length (a ++ b) = (String.length a + String.length b)%nat.
Proof. induction a; simpl; congruence. Qed.

Lemma json_ext_here_iff (s : string) :
  json_ext_here s = true <-> lower_string s = ".json".
Proof. unfold json_ext_here. apply String.eqb_eq. Qed.

Lemma replace_json_ext_match (stem ext : string) :
  lower_string ext = ".json" ->
  replace_json_ext (stem ++ ext) = stem ++ ".pdf".
Proof.
  intros Hext. induction stem as [| c stem IH]; simpl.
  - apply json_ext_here_iff in Hext.
    destruct ext as [| a ext]; [discriminate |].
    cbn [append replace_json_ext]. now rewrite Hext.
  - destruct (json_ext_here (String c (stem ++ ext))) eqn:E.
    + apply json_ext_here_iff in E.
      apply (f_equal String.length) in E, Hext.
      rewrite lower_string_length in E, Hext. simpl in E, Hext.
      rewrite append_length in E. lia.
    + now rewrite IH.
Qed.

Lemma replace_json_ext_nomatch (s : string) :
  (forall stem ext, s = stem ++ ext -> lower_string ext <> ".json") ->
  replace_json_ext s = s.
Proof.
  induction s as [| c s IH]; intros H.
  - reflexivity.
  - simpl. destruct (json_ext_here (String c s)) eqn:E.
    + apply json_ext_here_iff in E. exfalso.
      apply (H "" (String c s) eq_refl E).
    + f_equal. apply IH. intros stem ext Hs.
      apply (H (String c stem) ext). simpl. now rewrite Hs.
Qed.

(** C10.  With the input file as the only positional argument, an input
    name that ends in .json (in any case) gives the output path of the name
    with that ending replaced by .pdf; any other input name gives the input
    path itself as the output path, and every file the run writes is then
    the input file. *)
Theorem C10_default_output_path {R : Runtime} (w : world) (c : cli)
        (input : string) :
  positionals c = [input] ->
  (forall stem ext, input = stem ++ ext -> lower_string ext = ".json" ->
     outputPath w c = w_resolve w (stem ++ ".pdf")) /\
  ((forall stem ext, input = stem ++ ext -> lower_string ext <> ".json") ->
     outputPath w c = inputPath w c /\
     forall p, In (EvWriteFile p) (fst (run w c)) -> p = inputPath w c).
Proof.
  intros Hpos. unfold outputPath, inputPath. rewrite Hpos. simpl. split.
  - intros stem ext -> Hext. now rewrite replace_json_ext_match.
  - intros Hno. rewrite (replace_json_ext_nomatch input Hno).
    split; [reflexivity |]. intros p Hin.
    apply run_expected in Hin. simpl in Hin. subst p.
    unfold outputPath. rewrite Hpos. simpl.
    now rewrite (replace_json_ext_nomatch input Hno).
Qed.

Lemma C10_default_output_path_witness :
  outputPath (Sample.good_world JNull Sample.fixed_dom)
    (Sample.plain_cli "cv.Json") = "/work/cv.pdf" /\
  outputPath (Sample.good_world JNull Sample.fixed_dom)
    (Sample.plain_cli "notes.txt")
  = inputPath (Sample.good_world JNull Sample.fixed_dom)
      (Sample.plain_cli "notes.txt").
Proof.
  split.
  - apply (proj1 (@C10_default_output_path decimal_runtime
                    (Sample.good_world JNull Sample.fixed_dom)
                    (Sample.plain_cli "cv.Json") "cv.Json" eq_refl)
             "cv" ".Json"); reflexivity.
  - assert (Hno : forall stem ext, "notes.txt" = stem ++ ext ->
                                   lower_string ext <> ".json").
    { intros stem ext H Hl.
      repeat (destruct stem as [| ? stem]; simpl in H;
              [subst ext; simpl in Hl; discriminate | injection H as _ H]).
      destruct stem; simpl in H; [subst ext |]; discriminate. }
    exact (proj1 (proj2 (@C10_default_output_path decimal_runtime
                           (Sample.good_world JNull Sample.fixed_dom)
                           (Sample.plain_cli "notes.txt") "notes.txt" eq_refl)
                    Hno)).
Defined.

(* ------------------------------------------------------------------ *)
(** ** The merge of the overrides *)

Lemma assoc_set_same (k : string) (x : jsval) (ps : props) :
  assoc k (assoc_set k x ps) = Some x.
Proof.
  induction ps as [| [k' v] r IH]; simpl.
  - now rewrite String.eqb_refl.
  - destruct (String.eqb k k') eqn:E; simpl; rewrite E; auto.
Qed.

Lemma assoc_set_other (k k' : string) (x : jsval) (ps : props) :
  k' <> k -> assoc k' (assoc_set k x ps) = assoc k' ps.
Proof.
  intros Hne. induction ps as [| [k0 v] r IH]; simpl.
  - apply String.eqb_neq in Hne. now rewrite Hne.
  - destruct (String.eqb k k0) eqn:E; simpl.
    + apply String.eqb_eq in E. subst k0.
      apply String.eqb_neq in Hne. now rewrite Hne.
    + destruct (String.eqb k' k0); auto.
Qed.


Lemma get_set_same (v v' : jsval) (k : string) (x : jsval) :
  set_prop v k x = Some v' -> get_prop v' k = x.
Proof.
  destruct v; simpl; intros H; try discriminate;
    injection H as <-; simpl; now rewrite assoc_set_same.
Qed.

Lemma get_set_other (v v' : jsval) (k k' : string) (x : jsval) :
  set_prop v k x = Some v' -> k' <> k -> get_prop v' k' = get_prop v k'.
Proof.
  destruct v; simpl; intros H Hne; try discriminate;
    injection H as <-; simpl; now rewrite assoc_set_other.
Qed.




Lemma supplied_Some (s : string) : s <> "" -> supplied (Some s) = true.
Proof. destruct s; simpl; congruence. Qed.

Lemma supplied_value (o : option string) :
  supplied o = true -> exists s, o = Some s /\ s <> "".
Proof.
  destruct o as [[| a s] |]; simpl; intros H; try discriminate.
  eexists. split; [reflexivity | discriminate].
Qed.

Lemma assoc_set_id (k : string) (x : jsval) (ps : props) :
  assoc k ps = Some x -> assoc_set k x ps = ps.
Proof.
  induction ps as [| [k' v] r IH]; simpl; [discriminate |].
  destruct (String.eqb k k') eqn:E.
  - intros H. injection H as ->. reflexivity.
  - intros H. now rewrite IH.
Qed.

Lemma set_prop_id (v : jsval) (k : string) :
  truthy_val (get_prop v k) = true -> set_prop v k (get_prop v k) = Some v.
Proof.
  destruct v; simpl; try discriminate.
  - destruct (assoc k props0) eqn:E; [| discriminate].
    intros _. now rewrite assoc_set_id.
  - destruct (assoc k props0) eqn:E; [| discriminate].
    intros _. now rewrite assoc_set_id.
Qed.

Lemma truthy_not_nullish (v : jsval) : truthy_val v = true -> nullish v = false.
Proof. destruct v; simpl; congruence. Qed.









(* ------------------------------------------------------------------ *)
(** ** Validation of the overrides *)

(** C6 (as the driver has it).  When help is not asked for and an input
    file is named, a template or format override that is not empty and not
    in the enumerated set ends the invocation with exit code 1, and all it
    has done by then is to print an error: no file is read, and no server
    or browser process is asked for. *)
Theorem C6_invalid_override_is_fatal {R : Runtime} (w : world) (c : cli) :
  opt_help c = false ->
  positionals c <> [] ->
  (exists t, opt_template c = Some t /\ t <> "" /\ ~ In t VALID_TEMPLATES) \/
  (exists f, opt_format c = Some f /\ f <> "" /\ ~ In f VALID_FORMATS) ->
  snd (run w c) = 1 /\
  forall e, In e (fst (run w c)) -> exists text, e = EvError text.
Proof.
  intros Hhelp Hpos Hbad. unfold run, script. rewrite Hhelp.
  destruct (positionals c) as [| p0 ps] eqn:Ep; [congruence |].
  cbn [List.length Nat.eqb orb].
  destruct (supplied (opt_template c)
            && negb (includes VALID_TEMPLATES
                       match opt_template c with
                       | Some t => t
                       | None => ""
                       end))%bool eqn:Et.
  - cbn. split; [reflexivity |].
    intros e [<- | []]. eauto.
  - destruct Hbad as [[t [Ht [Hne Hnot]]] | [f [Hf [Hne Hnot]]]].
    + exfalso. rewrite Ht in Et. rewrite (supplied_Some _ Hne) in Et.
      apply includes_not_In in Hnot. rewrite Hnot in Et. discriminate.
    + rewrite Hf. rewrite (supplied_Some _ Hne).
      apply includes_not_In in Hnot. rewrite Hnot. cbn.
      split; [reflexivity |]. intros e [<- | []]. eauto.
Qed.

Lemma C6_invalid_override_is_fatal_witness :
  snd (run (R := decimal_runtime)
         (Sample.good_world (Sample.payload "onyx" "a4" 14 12)
            Sample.fixed_dom)
         (Sample.override_cli "cv.json" "bogus" "a4")) = 1.
Proof.
  apply (@C6_invalid_override_is_fatal decimal_runtime
           (Sample.good_world (Sample.payload "onyx" "a4" 14 12)
              Sample.fixed_dom)
           (Sample.override_cli "cv.json" "bogus" "a4")).
  - reflexivity.
  - discriminate.
  - left. exists "bogus". split; [reflexivity | split; [discriminate |]].
    simpl. intuition discriminate.
Defined.

(** C6 fails as stated: the template of the payload is never checked
    against the enumerated set, so a run with an unknown template starts
    the server and the browser and ends with exit code 0; and with the help
    flag an unknown override ends with exit code 0. *)
Lemma C6_counterexample :
  (effective_template (R := decimal_runtime)
     (Sample.payload "bogus" "a4" 14 12) = "bogus" /\
   ~ In "bogus" VALID_TEMPLATES /\
   snd (run (R := decimal_runtime)
          (Sample.good_world (Sample.payload "bogus" "a4" 14 12)
             Sample.fixed_dom)
          (Sample.plain_cli "cv.json")) = 0 /\
   existsb is_process_event
     (fst (run (R := decimal_runtime)
             (Sample.good_world (Sample.payload "bogus" "a4" 14 12)
                Sample.fixed_dom)
             (Sample.plain_cli "cv.json"))) = true) /\
  run (R := decimal_runtime)
    (Sample.good_world (Sample.payload "onyx" "a4" 14 12) Sample.fixed_dom)
    {| opt_template := Some "bogus"; opt_format := None; opt_help := true;
       positionals := [ "cv.json" ] |} = ([EvUsage], 0).
Proof.
  split; [split; [reflexivity | split; [| split; reflexivity]] | reflexivity].
  simpl. intuition discriminate.
Qed.

(* ------------------------------------------------------------------ *)
(** ** Release of the server and the browser *)

Lemma no_exit_bind {A B} (m : M A) (k : A -> M B) :
  no_exit m -> (forall a, no_exit (k a)) -> no_exit (bind m k).
Proof.
  unfold no_exit. destruct m as [t [a | e | code]]; simpl; intros Hm Hk c.
  - specialize (Hk a c). destruct (k a) as [t2 r]. exact Hk.
  - discriminate.
  - exfalso. now apply (Hm code).
Qed.

Lemma no_exit_perform (w : world) (s : step) (e : event) :
  no_exit (perform w s e).
Proof. unfold no_exit, perform. destruct (w_fails w s); discriminate. Qed.

Lemma no_exit_emit (e : event) : no_exit (emit e).
Proof. unfold no_exit. discriminate. Qed.

(** The body of the [try] never ends the process by itself. *)
Lemma render_no_exit {R : Runtime} (w : world) (rd : jsval)
      (template format : string) (ps : jsval) (url out : string) :
  no_exit (render w rd template format ps url out).
Proof.
  unfold render, render_page.
  repeat first
    [ apply no_exit_bind; [| intros ?]
    | apply no_exit_perform
    | apply no_exit_emit
    | match goal with
      | |- no_exit (if ?b then _ else _) => destruct b
      | |- no_exit (match ?x with _ => _ end) => destruct x
      end
    | (intros code; discriminate) ].
Qed.

Lemma server_running_app (t1 t2 : list event) (b : bool) :
  server_running (t1 ++ t2) b = server_running t2 (server_running t1 b).
Proof.
  revert b. induction t1 as [| e t1 IH]; intros b; [reflexivity |].
  destruct e; simpl; apply IH.
Qed.

(** Once the [try] is entered and closing the browser does not throw, the
    [finally] closes the browser and kills the server, last of all. *)
Lemma finally_releases {R : Runtime} (w : world) (rd : jsval)
      (template format : string) (ps : jsval) (url out : string) (b : bool) :
  w_fails w StBrowserClose = false ->
  let session :=
    try_finally (render w rd template format ps url out)
      (bind (perform w StBrowserClose EvBrowserClose)
         (fun _ => emit EvKillServer)) in
  fst session
  = (fst (render w rd template format ps url out)
       ++ [ EvBrowserClose; EvKillServer ])%list /\
  server_running (fst session) b = false.
Proof.
  intros Hclose session. subst session.
  pose proof (render_no_exit w rd template format ps url out) as Hne.
  unfold perform. rewrite Hclose.
  destruct (render w rd template format ps url out) as [t [a | e | code]];
    simpl.
  - split; [reflexivity |]. now rewrite server_running_app.
  - split; [reflexivity |]. now rewrite server_running_app.
  - exfalso. now apply (Hne code).
Qed.

(** A server that only writes to its error stream within the 60 s makes
    [main] reject after the spawn, with nothing done about the child. *)
Lemma silent_server_rejects {R : Runtime} (w : world) (rd : jsval)
      (template format : string) (ps : jsval) (out : string) :
  Forall (fun e => exists data, e = Stderr data) (w_server_events w) ->
  main w rd template format ps out
  = ([ EvLog "Starting Vite dev server...";
       EvSpawnServer (15173 + w_random w) ],
     Throw "Vite dev server failed to start within 60 seconds").
Proof.
  intros Hsilent.
  assert (Hloop : forall output,
             server_loop (w_server_events w) output
             = ([], Throw "Vite dev server failed to start within 60 seconds")).
  { induction Hsilent as [| e evs [data ->] _ IH]; intros output.
    - reflexivity.
    - cbn [server_loop]. apply IH. }
  unfold main, startViteServer. rewrite Hloop. reflexivity.
Qed.

(** C1 (evaluation).  With a server that never reports an address the run
    ends with exit code 1 and writes no file, but the server it started is
    neither killed nor ended: the rejection reaches the handler of
    [main ()] before the [try] is entered.  The same happens to the server
    when closing the browser throws inside the [finally].  The path where
    no browser is found and the path of a successful run do end the
    server. *)
Theorem C1_server_left_running :
  let data := Sample.payload "onyx" "a4" 14 12 in
  let c := Sample.plain_cli "cv.json" in
  let silent := run (R := decimal_runtime)
                  (Sample.silent_server_world data Sample.fixed_dom) c in
  let close_fails := run (R := decimal_runtime)
                       (Sample.close_fails_world data Sample.fixed_dom) c in
  let no_browser := run (R := decimal_runtime)
                      (Sample.no_browser_world data Sample.fixed_dom) c in
  let good := run (R := decimal_runtime)
                (Sample.good_world data Sample.fixed_dom) c in
  (snd silent = 1 /\
   existsb is_write (fst silent) = false /\
   In (EvSpawnServer 15180) (fst silent) /\
   ~ In EvKillServer (fst silent) /\
   server_running (fst silent) false = true) /\
  (snd close_fails = 1 /\ server_running (fst close_fails) false = true) /\
  (snd no_browser = 1 /\ server_running (fst no_browser) false = false) /\
  (snd good = 0 /\ server_running (fst good) false = false /\
   In EvBrowserClose (fst good)).
Proof.
  vm_compute. repeat split; try reflexivity; try tauto.
  intros H. repeat (destruct H as [H | H]; [discriminate |]). exact H.
Qed.

(* ------------------------------------------------------------------ *)
(** ** Arithmetic of the geometry *)


Lemma gtb_of_Z (k : Z) : gtb (of_Z k) (of_Z 0) = (1 <=? k).
Proof.
  unfold gtb, of_Z, Qle_bool, inject_Z. simpl.
  destruct (k * 1 <=? 0) eqn:E1, (1 <=? k) eqn:E2; simpl; auto; lia.
Qed.

Lemma or_else_Num (a : number) (q : Q) : exists q', or_else a (Num q) = Num q'.
Proof.
  unfold or_else. destruct a as [| x]; simpl; eauto.
  destruct (Qeq_bool x 0); simpl; eauto.
Qed.

Section GeometryLemmas.
Context {R : Runtime}.

Lemma add_height_Num (q : Q) (el : element) :
  exists q', add_height (Num q) el = Num q'.
Proof.
  unfold add_height.
  destruct (or_else_Num (parseFloat (computed_marginBottom el)) (inject_Z 0))
    as [m Hm].
  unfold of_Z. rewrite Hm. simpl. eauto.
Qed.

Lemma fold_add_height_Num (l : list element) (q : Q) :
  exists q', fold_left add_height l (Num q) = Num q'.
Proof.
  revert q. induction l as [| el l IH]; intros q; cbn [fold_left]; eauto.
  destruct (add_height_Num q el) as [q1 H1]. rewrite H1. apply IH.
Qed.

(** The measured total is a number, whatever the document. *)
Lemma total_height_Num (l : list element) : exists q, total_height l = Num q.
Proof. apply fold_add_height_Num. Qed.

Lemma max_page_truthy (q : Q) (h : Z) :
  0 < h -> truthy (Math_max (Num q) (of_Z h)) = true.
Proof.
  intros Hh. unfold Math_max, of_Z, truthy.
  destruct (Qle_bool q (inject_Z h)) eqn:E.
  - unfold Qeq_bool, inject_Z. simpl.
    destruct (Z.eqb_spec (h * 1) 0); [lia | reflexivity].
  - apply negb_true_iff. destruct (Qeq_bool q 0) eqn:E0; [| reflexivity].
    apply Qeq_bool_iff in E0.
    assert (Hle : Qle_bool q (inject_Z h) = true).
    { apply Qle_bool_iff. rewrite E0. unfold Qle, inject_Z. simpl. lia. }
    congruence.
Qed.

(** The height handed to the capture in a free-form run. *)
Lemma free_form_pdfHeight (marginY : number) (d : dom) :
  pdfHeight true
    (snd (geometry_pass marginY true (of_Z (height dim_a4)) d)) dim_a4
  = Math_max (content_height marginY d) (of_Z (height dim_a4)).
Proof.
  unfold geometry_pass, free_form_pass, pdfHeight, content_height. cbn [snd].
  destruct (total_height_Num
              (space_all_but_last (mul marginY three_quarters)
                 (pageElements d))) as [q Hq].
  rewrite Hq. rewrite max_page_truthy; [reflexivity |]. simpl. lia.
Qed.

Lemma compute_margins_members (template : string) (ps1 ps2 : jsval) :
  opt_member ps1 "marginX" = opt_member ps2 "marginX" ->
  opt_member ps1 "marginY" = opt_member ps2 "marginY" ->
  compute_margins template ps1 = compute_margins template ps2.
Proof. intros HX HY. unfold compute_margins. now rewrite HX, HY. Qed.

End GeometryLemmas.

(* ------------------------------------------------------------------ *)
(** ** Margins *)


Ltac in_trace := vm_compute; repeat (first [left; reflexivity | right]).


(* ------------------------------------------------------------------ *)
(** ** The capture request *)

(** The lookup in the table of the page sizes: it answers the size of
    letter for that format and the size of a4 for every other format that
    names no inherited property; for one that does it answers no size. *)
Lemma dimensions_of_Some (format : string) (dims : dimensions) :
  dimensions_of format = Some dims ->
  ~ In format OBJECT_PROTOTYPE_KEYS /\
  dims = (if String.eqb format "letter" then dim_letter else dim_a4).
Proof.
  unfold dimensions_of, PAGE_DIMENSIONS. cbn [lookup_dimensions].
  destruct (String.eqb format "a4") eqn:Ea.
  { apply String.eqb_eq in Ea. subst format. intros H. injection H as <-.
    split; [simpl; intuition discriminate | reflexivity]. }
  destruct (String.eqb format "letter") eqn:El.
  { apply String.eqb_eq in El. subst format. intros H. injection H as <-.
    split; [simpl; intuition discriminate | reflexivity]. }
  destruct (String.eqb format "free-form") eqn:Ef.
  { apply String.eqb_eq in Ef. subst format. intros H. injection H as <-.
    split; [simpl; intuition discriminate | reflexivity]. }
  destruct (includes OBJECT_PROTOTYPE_KEYS format) eqn:Ei; [discriminate |].
  intros H. injection H as <-.
  split; [now apply includes_not_In | reflexivity].
Qed.

Lemma dimensions_of_None (format : string) :
  dimensions_of format = None <-> In format OBJECT_PROTOTYPE_KEYS.
Proof.
  split.
  - unfold dimensions_of. destruct (lookup_dimensions format PAGE_DIMENSIONS);
      [discriminate |].
    destruct (includes OBJECT_PROTOTYPE_KEYS format) eqn:Ei; [| discriminate].
    intros _. now apply includes_In.
  - intros Hin. destruct (dimensions_of format) as [dims |] eqn:E;
      [| reflexivity].
    apply dimensions_of_Some in E. tauto.
Qed.

(** C7.  Every capture request of every run is for a format that names no
    inherited property of the table, and has: the width 816px for the
    format letter and 794px for every other format; for the format letter
    the height 1056px, for the format free-form the larger of the measured
    content height and 1123 (followed by px), and for every other format
    the height 1123px; the computed margins at the top, the left and the
    right and 0 at the bottom; the requests for the background, a tagged
    document and the wait for the fonts.  For the format a4, a print-margin
    template and the raw margins 14 and 12 the request is 794px by 1123px
    with the margins 16, 19, 19 and 0. *)
Theorem C7_capture_request :
  (forall (R : Runtime) (w : world) (c : cli) (o : pdf_options),
      In (EvPdf o) (fst (run w c)) ->
      exists rd,
        settings_of w c = Some rd /\
        let format := effective_format rd in
        let m := compute_margins (effective_template rd)
                   (pageSettings_of rd) in
        ~ In format OBJECT_PROTOTYPE_KEYS /\
        (format = "letter" ->
         pdf_width o = NumberToString (of_Z 816) ++ "px" /\
         pdf_height o = NumberToString (of_Z 1056) ++ "px") /\
        (format <> "letter" ->
         pdf_width o = NumberToString (of_Z 794) ++ "px") /\
        (format <> "letter" -> format <> "free-form" ->
         pdf_height o = NumberToString (of_Z 1123) ++ "px") /\
        (format = "free-form" ->
         exists total,
           content_height (snd m) (w_dom w) = Num total /\
           (total <= inject_Z 1123 ->
            pdf_height o = NumberToString (of_Z 1123) ++ "px") /\
           (inject_Z 1123 < total ->
            pdf_height o = NumberToString (Num total) ++ "px"))%Q /\
        pdf_margin_of o = {| m_bottom := of_Z 0; m_top := snd m;
                             m_right := fst m; m_left := fst m |} /\
        pdf_printBackground o = true /\
        pdf_tagged o = true /\
        pdf_waitForFonts o = true) /\
  (forall (w : world) (c : cli) (o : pdf_options) (rd : jsval),
      In (EvPdf o) (fst (run (R := decimal_runtime) w c)) ->
      settings_of w c = Some rd ->
      effective_format (R := decimal_runtime) rd = "a4" ->
      In (effective_template (R := decimal_runtime) rd)
         PRINT_MARGIN_TEMPLATES ->
      opt_member (pageSettings_of rd) "marginX" = JNum (of_Z 14) ->
      opt_member (pageSettings_of rd) "marginY" = JNum (of_Z 12) ->
      o = Sample.a4_capture).
Proof.
  split.
  - intros R w c o Hin. apply run_expected in Hin.
    destruct Hin as [rd [dims [Hrd [Hdims Ho]]]].
    exists rd. split; [assumption |].
    apply dimensions_of_Some in Hdims. destruct Hdims as [Hown Hdims].
    subst o. cbv zeta. unfold capture_request, capture_options, px.
    cbn [pdf_width pdf_height pdf_margin_of pdf_printBackground pdf_tagged
         pdf_waitForFonts].
    split; [assumption |].
    split; [| split; [| split; [| split; [| repeat split]]]].
    + intros Hl. rewrite Hl in *. subst dims. split; reflexivity.
    + intros Hl. apply String.eqb_neq in Hl. rewrite Hl in Hdims.
      subst dims. reflexivity.
    + intros Hl Hf. apply String.eqb_neq in Hl, Hf. rewrite Hl in Hdims.
      subst dims. rewrite Hf. reflexivity.
    + intros Hf. rewrite Hf in *. subst dims.
      change (String.eqb "free-form" "letter") with false. cbv iota.
      change (String.eqb "free-form" "free-form") with true.
      rewrite free_form_pdfHeight.
      destruct (total_height_Num
                  (space_all_but_last
                     (mul (snd (compute_margins (effective_template rd)
                                  (pageSettings_of rd))) three_quarters)
                     (pageElements (w_dom w)))) as [total Ht].
      exists total. unfold content_height. rewrite Ht.
      split; [reflexivity |]. unfold Math_max, of_Z. cbn [height dim_a4].
      split.
      * intros Hle. apply Qle_bool_iff in Hle. now rewrite Hle.
      * intros Hlt. destruct (Qle_bool total (inject_Z 1123)) eqn:E;
          [| reflexivity].
        apply Qle_bool_iff in E. exfalso. now apply (Qlt_not_le _ _ Hlt).
  - intros w c o rd Hin Hrd Hf Ht HX HY. apply run_expected in Hin.
    destruct Hin as [rd' [dims [Hrd' [Hdims Ho]]]].
    assert (rd' = rd) by congruence. subst rd' o.
    rewrite Hf in Hdims. injection Hdims as <-.
    unfold capture_request, compute_margins.
    apply includes_In in Ht. rewrite Ht, Hf, HX, HY. reflexivity.
Qed.

Lemma C7_capture_request_witness :
  (exists o,
      In (EvPdf o)
         (fst (run (R := decimal_runtime) Sample.letter_world
                 (Sample.plain_cli "cv.json"))) /\
      pdf_width o = "816px" /\ pdf_height o = "1056px") /\
  (exists o,
      In (EvPdf o)
         (fst (run (R := decimal_runtime) (Sample.free_world "onyx")
                 (Sample.plain_cli "cv.json"))) /\
      pdf_width o = "794px" /\ pdf_height o = "1524px") /\
  In (EvPdf Sample.a4_capture)
     (fst (run (R := decimal_runtime) Sample.a4_world
             (Sample.plain_cli "cv.json"))) /\
  forall o,
    In (EvPdf o)
       (fst (run (R := decimal_runtime) Sample.a4_world
               (Sample.plain_cli "cv.json"))) ->
    o = Sample.a4_capture.
Proof.
  split; [| split; [| split]].
  - eexists. split; [in_trace |].
    match goal with
    | |- pdf_width ?o = _ /\ _ =>
        assert (H : In (EvPdf o)
                      (fst (run (R := decimal_runtime) Sample.letter_world
                              (Sample.plain_cli "cv.json")))) by in_trace;
        destruct (proj1 C7_capture_request decimal_runtime
                    Sample.letter_world (Sample.plain_cli "cv.json") o H)
          as [rd [Hrd [_ [Hletter _]]]]
    end.
    assert (Er : rd = Sample.payload "onyx" "letter" 14 12).
    { vm_compute in Hrd. injection Hrd as <-. reflexivity. }
    subst rd. exact (Hletter eq_refl).
  - eexists. split; [in_trace |].
    match goal with
    | |- pdf_width ?o = _ /\ _ =>
        assert (H : In (EvPdf o)
                      (fst (run (R := decimal_runtime)
                              (Sample.free_world "onyx")
                              (Sample.plain_cli "cv.json")))) by in_trace;
        destruct (proj1 C7_capture_request decimal_runtime
                    (Sample.free_world "onyx") (Sample.plain_cli "cv.json")
                    o H)
          as [rd [Hrd [_ [_ [Hwidth [_ [Hfree _]]]]]]]
    end.
    assert (Er : rd = Sample.payload "onyx" "free-form" 14 12).
    { vm_compute in Hrd. injection Hrd as <-. reflexivity. }
    subst rd. split.
    + apply Hwidth. discriminate.
    + destruct (Hfree eq_refl) as [total [Ht [_ Hlarge]]].
      vm_compute in Ht. injection Ht as <-.
      apply Hlarge. reflexivity.
  - in_trace.
  - intros o Ho.
    apply (proj2 C7_capture_request Sample.a4_world
             (Sample.plain_cli "cv.json") o
             (Sample.payload "onyx" "a4" 14 12) Ho eq_refl eq_refl).
    + vm_compute. tauto.
    + reflexivity.
    + reflexivity.
Defined.

(* ------------------------------------------------------------------ *)
(** ** Determinism of the geometry *)

(** C8.  Two runs whose effective format, effective template, raw margins
    and loaded document are the same hand the same arguments to the
    geometry pass, get the same document and the same return value from
    it, and make the same capture request, whatever else differs between
    them (command line, other payload content, port, server address,
    browser, file names). *)
Theorem C8_geometry_deterministic {R : Runtime}
        (w1 w2 : world) (c1 c2 : cli) (rd1 rd2 : jsval) :
  settings_of w1 c1 = Some rd1 ->
  settings_of w2 c2 = Some rd2 ->
  effective_format rd1 = effective_format rd2 ->
  effective_template rd1 = effective_template rd2 ->
  opt_member (pageSettings_of rd1) "marginX"
  = opt_member (pageSettings_of rd2) "marginX" ->
  opt_member (pageSettings_of rd1) "marginY"
  = opt_member (pageSettings_of rd2) "marginY" ->
  w_dom w1 = w_dom w2 ->
  (forall e1 e2,
      In e1 (fst (run w1 c1)) -> In e2 (fst (run w2 c2)) ->
      is_evaluate e1 = true -> is_evaluate e2 = true -> e1 = e2) /\
  (forall o1 o2,
      In (EvPdf o1) (fst (run w1 c1)) -> In (EvPdf o2) (fst (run w2 c2)) ->
      o1 = o2).
Proof.
  intros H1 H2 Hf Ht HX HY Hd.
  pose proof (compute_margins_members (effective_template rd2) _ _ HX HY)
    as Hm.
  split.
  - intros e1 e2 In1 In2 E1 E2.
    apply run_expected in In1. apply run_expected in In2.
    destruct e1; try discriminate. destruct e2; try discriminate.
    destruct In1 as [r1 [d1 [S1 [D1 ->]]]].
    destruct In2 as [r2 [d2 [S2 [D2 ->]]]].
    assert (r1 = rd1) by congruence. assert (r2 = rd2) by congruence.
    subst r1 r2. rewrite Hf in D1. assert (d1 = d2) by congruence. subst d2.
    unfold evaluate_event. now rewrite Hf, Ht, Hm, Hd.
  - intros o1 o2 In1 In2.
    apply run_expected in In1. apply run_expected in In2.
    destruct In1 as [r1 [d1 [S1 [D1 ->]]]].
    destruct In2 as [r2 [d2 [S2 [D2 ->]]]].
    assert (r1 = rd1) by congruence. assert (r2 = rd2) by congruence.
    subst r1 r2. rewrite Hf in D1. assert (d1 = d2) by congruence. subst d2.
    unfold capture_request. now rewrite Hf, Ht, Hm, Hd.
Qed.

Lemma C8_geometry_deterministic_witness :
  In (EvPdf Sample.a4_capture)
     (fst (run (R := decimal_runtime) Sample.a4_world
             (Sample.plain_cli "cv.json"))) /\
  exists o2,
    In (EvPdf o2)
       (fst (run (R := decimal_runtime) Sample.a4_world_again
               (Sample.override_cli "resume.json" "onyx" "a4"))) /\
    Sample.a4_capture = o2.
Proof.
  assert (H1 : In (EvPdf Sample.a4_capture)
                 (fst (run (R := decimal_runtime) Sample.a4_world
                         (Sample.plain_cli "cv.json")))) by in_trace.
  split; [exact H1 |].
  eexists. split; [in_trace |].
  refine (proj2 (@C8_geometry_deterministic decimal_runtime
                   Sample.a4_world Sample.a4_world_again
                   (Sample.plain_cli "cv.json")
                   (Sample.override_cli "resume.json" "onyx" "a4")
                   _ _ eq_refl eq_refl eq_refl eq_refl eq_refl eq_refl
                   eq_refl) _ _ H1 _).
  in_trace.
Defined.

(* ------------------------------------------------------------------ *)
(** ** The geometry pass *)

Lemma evaluate_event_inv {R : Runtime} (w : world) (c : cli)
      (my : number) (ff : bool) (mh : number) (after : dom)
      (res : option number) :
  In (EvEvaluate my ff mh after res) (fst (run w c)) ->
  exists rd dims,
    settings_of w c = Some rd /\
    dimensions_of (effective_format rd) = Some dims /\
    my = snd (compute_margins (effective_template rd) (pageSettings_of rd)) /\
    ff = String.eqb (effective_format rd) "free-form" /\
    mh = of_Z (height dims) /\
    after = fst (geometry_pass my ff mh (w_dom w)) /\
    res = snd (geometry_pass my ff mh (w_dom w)).
Proof.
  intros Hin. apply run_expected in Hin.
  destruct Hin as [rd [dims [Hrd [Hdims He]]]].
  exists rd, dims. split; [assumption |]. split; [assumption |].
  unfold evaluate_event in He. injection He as -> -> -> -> ->.
  repeat split.
Qed.

(** C3 (as the driver has it).  In every run of a fixed format the pass
    is handed the minimal page height 1056 for the format letter and 1123
    for every other format, and returns null.  The page height it reads is
    the trimmed value of the container where there is a container and that
    value is not empty, and the trimmed value of the root otherwise.  When
    the value read parses to a number, the page height of the root, and of
    the container where there is one, is set to the larger of that number
    and the minimal page height, less the vertical margin, followed by px;
    when it does not parse, the root and the container are left as they
    were.  The page elements stay the same in number; every one is allowed
    to break inside; one whose page index is at least 1 gets a page break
    before it, and for one whose page index is 0 or less, or is no number,
    that declaration is left as it was. *)
Theorem C3_fixed_format_geometry {R : Runtime} (w : world) (c : cli)
        (my : number) (ff : bool) (mh : number) (after : dom)
        (res : option number) :
  In (EvEvaluate my ff mh after res) (fst (run w c)) ->
  ff = false ->
  exists rd,
    settings_of w c = Some rd /\
    let format := effective_format rd in
    let d := w_dom w in
    let minPageHeight :=
      inject_Z (if String.eqb format "letter" then 1056 else 1123) in
    format <> "free-form" /\
    mh = Num minPageHeight /\
    res = None /\
    (exists v,
        ((exists cb, container d = Some cb /\
                     v = trim (computed_page_height cb) /\ v <> "") \/
         ((forall cb, container d = Some cb ->
                      trim (computed_page_height cb) = "") /\
          v = trim (computed_page_height (root d)))) /\
        (forall h, parseFloat v = Num h ->
           exists newHeight,
             let top := if Qle_bool h minPageHeight then minPageHeight
                        else h in
             (forall y, my = Num y ->
                newHeight = NumberToString (Num (Qred (top - y))) ++ "px") /\
             (my = NaN -> newHeight = NumberToString NaN ++ "px") /\
             root after
             = {| sheet_page_height := sheet_page_height (root d);
                  style_page_height := Some newHeight |} /\
             (forall cb, container d = Some cb ->
                container after
                = Some {| sheet_page_height := sheet_page_height cb;
                          style_page_height := Some newHeight |}) /\
             (container d = None -> container after = None)) /\
        (parseFloat v = NaN ->
         root after = root d /\ container after = container d)) /\
    List.length (pageElements after) = List.length (pageElements d) /\
    forall i el,
      nth_error (pageElements d) i = Some el ->
      exists el',
        nth_error (pageElements after) i = Some el' /\
        style_breakInside el' = Some "auto" /\
        (forall k, parseInt10 (data_page_index el) = of_Z k ->
                   style_breakBefore el'
                   = (if 1 <=? k then Some "page" else style_breakBefore el)) /\
        (parseInt10 (data_page_index el) = NaN ->
         style_breakBefore el' = style_breakBefore el) /\
        data_page_index el' = data_page_index el /\
        offsetHeight el' = offsetHeight el /\
        style_marginBottom el' = style_marginBottom el.
Proof.
  intros Hin Hff. apply evaluate_event_inv in Hin.
  destruct Hin as [rd [dims [Hrd [Hdims [_ [Hfree [Hmh [Hafter Hres]]]]]]]].
  apply dimensions_of_Some in Hdims. destruct Hdims as [_ Hdims].
  exists rd. split; [assumption |]. cbv zeta.
  rewrite Hff in Hfree, Hafter, Hres. symmetry in Hfree.
  split; [now apply String.eqb_neq |].
  assert (Hmin : mh = Num (inject_Z (if String.eqb (effective_format rd)
                                          "letter" then 1056 else 1123))).
  { rewrite Hmh, Hdims.
    destruct (String.eqb (effective_format rd) "letter"); reflexivity. }
  split; [assumption |].
  set (m := inject_Z (if String.eqb (effective_format rd) "letter"
                      then 1056 else 1123)) in *.
  clearbody m. clear Hmh Hdims dims. subst mh.
  unfold geometry_pass, fixed_pass, height_value in Hafter, Hres.
  split.
  { rewrite Hres. destruct (negb (isNaN _)); reflexivity. }
  split; [| split].
  - exists (current_height (w_dom w)). split.
    + unfold current_height. destruct (container (w_dom w)) as [cb |].
      * destruct (trim (computed_page_height cb)) as [| a t] eqn:E.
        -- right. split; [| reflexivity].
           intros cb' Hcb. injection Hcb as <-. exact E.
        -- left. exists cb. cbn [is_empty]. rewrite E.
           split; [reflexivity | split; [reflexivity | discriminate]].
      * right. split; [intros cb' Hcb; discriminate | reflexivity].
    + split.
      * intros h Hh. rewrite Hh in Hafter. cbn [Math_max isNaN negb] in Hafter.
        exists (px (sub (Num (if Qle_bool h m then m else h)) my)).
        cbv zeta. rewrite Hafter. cbn [fst root container].
        split; [intros y ->; reflexivity |].
        split; [intros ->; reflexivity |].
        split; [reflexivity |].
        split; [intros cb ->; reflexivity | intros ->; reflexivity].
      * intros Hnan. rewrite Hnan in Hafter. cbn [Math_max isNaN negb] in Hafter.
        rewrite Hafter. split; reflexivity.
  - rewrite Hafter. destruct (negb (isNaN _)); cbn [fst pageElements];
      apply length_map.
  - intros i el Hel. exists (break_element el).
    split.
    { rewrite Hafter. destruct (negb (isNaN _)); cbn [fst pageElements];
        rewrite nth_error_map, Hel; reflexivity. }
    unfold break_element.
    split; [reflexivity |].
    split.
    { intros k Hk. rewrite Hk, gtb_of_Z. destruct (1 <=? k); reflexivity. }
    split.
    { intros Hn. rewrite Hn. reflexivity. }
    destruct (gtb _ _); repeat split.
Qed.

Lemma C3_fixed_format_geometry_witness :
  (exists after,
      In (EvEvaluate (of_Z 16) false (of_Z 1123) after None)
         (fst (run (R := decimal_runtime) Sample.tall_world
                 (Sample.plain_cli "cv.json"))) /\
      style_page_height (root after) = Some "1184px" /\
      option_map style_page_height (container after)
      = Some (Some "1184px") /\
      map style_breakBefore (pageElements after) = [ None; Some "page" ]) /\
  (exists after,
      In (EvEvaluate (of_Z 16) false (of_Z 1056) after None)
         (fst (run (R := decimal_runtime) Sample.blank_letter_world
                 (Sample.plain_cli "cv.json"))) /\
      style_page_height (root after) = Some "1040px" /\
      option_map style_page_height (container after)
      = Some (Some "1040px")).
Proof.
  split.
  - eexists. split; [in_trace |].
    match goal with
    | |- style_page_height (root ?a) = _ /\ _ =>
        assert (H : In (EvEvaluate (of_Z 16) false (of_Z 1123) a None)
                      (fst (run (R := decimal_runtime) Sample.tall_world
                              (Sample.plain_cli "cv.json")))) by in_trace;
        destruct (@C3_fixed_format_geometry decimal_runtime
                    Sample.tall_world (Sample.plain_cli "cv.json")
                    _ _ _ _ _ H eq_refl)
          as [rd [Hrd [_ [_ [_ [[v [Hread [Hnum _]]] [_ Hels]]]]]]]
    end.
    assert (Er : rd = Sample.payload "onyx" "a4" 14 12).
    { vm_compute in Hrd. injection Hrd as <-. reflexivity. }
    subst rd.
    assert (Ev : v = "1200px").
    { destruct Hread as [[cb [Hcb [Hv _]]] | [Hblank _]].
      - injection Hcb as <-. exact Hv.
      - specialize (Hblank _ eq_refl). discriminate Hblank. }
    subst v.
    destruct (Hnum (inject_Z 1200) eq_refl)
      as [newHeight [Hnew [_ [Hroot [Hcont _]]]]].
    rewrite (Hnew (inject_Z 16) eq_refl) in Hroot, Hcont.
    split; [now rewrite Hroot |].
    split; [now rewrite (Hcont _ eq_refl) |].
    destruct (Hels 0%nat _ eq_refl) as [e0 [N0 [_ [B0 _]]]].
    destruct (Hels 1%nat _ eq_refl) as [e1 [N1 [_ [B1 _]]]].
    specialize (B0 0 eq_refl). specialize (B1 1 eq_refl).
    cbn [pageElements fst] in N0, N1 |- *.
    vm_compute in N0, N1. injection N0 as <-. injection N1 as <-.
    reflexivity.
  - eexists. split; [in_trace |].
    match goal with
    | |- style_page_height (root ?a) = _ /\ _ =>
        assert (H : In (EvEvaluate (of_Z 16) false (of_Z 1056) a None)
                      (fst (run (R := decimal_runtime)
                              Sample.blank_letter_world
                              (Sample.plain_cli "cv.json")))) by in_trace;
        destruct (@C3_fixed_format_geometry decimal_runtime
                    Sample.blank_letter_world (Sample.plain_cli "cv.json")
                    _ _ _ _ _ H eq_refl)
          as [rd [Hrd [_ [_ [_ [[v [Hread [Hnum _]]] _]]]]]]
    end.
    assert (Er : rd = Sample.payload "onyx" "letter" 14 12).
    { vm_compute in Hrd. injection Hrd as <-. reflexivity. }
    subst rd.
    assert (Ev : v = "900px").
    { destruct Hread as [[cb [Hcb [Hv Hne]]] | [_ Hv]].
      - injection Hcb as <-. exfalso. apply Hne. exact Hv.
      - exact Hv. }
    subst v.
    destruct (Hnum (inject_Z 900) eq_refl)
      as [newHeight [Hnew [_ [Hroot [Hcont _]]]]].
    rewrite (Hnew (inject_Z 16) eq_refl) in Hroot, Hcont.
    split; [now rewrite Hroot | now rewrite (Hcont _ eq_refl)].
Defined.

(** C3 fails as stated: where no style sheet defines the page height, the
    value read is empty, it parses to NaN, and the pass sets no page height
    at all. *)
Lemma C3_counterexample :
  In (EvEvaluate (of_Z 16) false (of_Z 1123) Sample.bare_after None)
     (fst (run (R := decimal_runtime) Sample.bare_world
             (Sample.plain_cli "cv.json"))) /\
  current_height Sample.bare_dom = "" /\
  Math_max (parseFloat (Runtime := decimal_runtime)
              (current_height Sample.bare_dom)) (of_Z 1123) = NaN /\
  style_page_height (root Sample.bare_after) = None /\
  root Sample.bare_after = root Sample.bare_dom.
Proof.
  split; [in_trace | repeat split].
Qed.

(* ------------------------------------------------------------------ *)
(** ** The free-form scenario *)

(** C4 (as the driver has it).  In a free-form run on the three page
    elements of heights 500, 600 and 400 with the raw vertical margin 12,
    the pass is handed the margin in pixels (16 for a print-margin
    template, 0 for any other), spaces the first two elements by that
    margin times 0.75 (12px or 0px), returns the total 1524 or 1500, and the
    capture height is that total, the larger of it and the minimal page
    height 1123. *)
Theorem C4_free_form_scenario (w : world) (c : cli) (rd : jsval)
        (my : number) (ff : bool) (mh : number) (after : dom)
        (res : option number) :
  In (EvEvaluate my ff mh after res)
     (fst (run (R := decimal_runtime) w c)) ->
  settings_of w c = Some rd ->
  effective_format (R := decimal_runtime) rd = "free-form" ->
  opt_member (pageSettings_of rd) "marginY" = JNum (of_Z 12) ->
  w_dom w = Sample.free_dom ->
  let printed :=
    includes PRINT_MARGIN_TEMPLATES
      (effective_template (R := decimal_runtime) rd) in
  my = of_Z (if printed then 16 else 0) /\
  map style_marginBottom (pageElements after)
  = (if printed then [ Some "12px"; Some "12px"; None ]
     else [ Some "0px"; Some "0px"; None ]) /\
  content_height (R := decimal_runtime) my Sample.free_dom
  = of_Z (if printed then 1524 else 1500) /\
  res = Some (of_Z (if printed then 1524 else 1500)) /\
  res = Some (Math_max (content_height (R := decimal_runtime) my
                          Sample.free_dom) (of_Z 1123)) /\
  forall o, In (EvPdf o) (fst (run (R := decimal_runtime) w c)) ->
            pdf_height o = (if printed then "1524px" else "1500px").
Proof.
  intros Hin Hrd Hf HY Hd printed. apply evaluate_event_inv in Hin.
  destruct Hin as [rd' [dims [Hrd' [Hdims [Hmy [Hff [Hmh [Hafter Hres]]]]]]]].
  assert (rd' = rd) by congruence. subst rd'.
  rewrite Hf in Hff, Hdims. injection Hdims as <-.
  rewrite Hd in Hafter, Hres.
  unfold compute_margins in Hmy. fold printed in Hmy. rewrite HY in Hmy.
  assert (Hpdf : forall o, In (EvPdf o) (fst (run (R := decimal_runtime) w c))
                           -> o = capture_request (R := decimal_runtime)
                                    dim_a4 (effective_template rd) "free-form"
                                    (pageSettings_of rd) Sample.free_dom).
  { intros o Ho. apply run_expected in Ho.
    destruct Ho as [r [dims [Hr [Hdims ->]]]].
    assert (r = rd) by congruence. subst r.
    rewrite Hf in Hdims. injection Hdims as <-. now rewrite Hf, Hd. }
  unfold capture_request, compute_margins in Hpdf. fold printed in Hpdf.
  rewrite HY in Hpdf.
  destruct printed; cbn [snd] in Hmy; subst my ff mh after res;
    (repeat split; try reflexivity; intros o Ho; rewrite (Hpdf o Ho);
     reflexivity).
Qed.

Lemma C4_free_form_scenario_witness :
  In (EvEvaluate (of_Z 16) true (of_Z 1123) Sample.free_after
        (Some (of_Z 1524)))
     (fst (run (R := decimal_runtime) (Sample.free_world "onyx")
             (Sample.plain_cli "cv.json"))) /\
  map style_marginBottom (pageElements Sample.free_after)
  = [ Some "12px"; Some "12px"; None ].
Proof.
  assert (H : In (EvEvaluate (of_Z 16) true (of_Z 1123) Sample.free_after
                    (Some (of_Z 1524)))
                (fst (run (R := decimal_runtime) (Sample.free_world "onyx")
                        (Sample.plain_cli "cv.json")))) by in_trace.
  split; [exact H |].
  exact (proj1 (proj2 (C4_free_form_scenario (Sample.free_world "onyx")
                         (Sample.plain_cli "cv.json") _ _ _ _ _ _
                         H eq_refl eq_refl eq_refl eq_refl))).
Defined.

(** C4 fails as stated: with the onyx template the spacing is 12px, not
    9px, and the total is 1524, not 1518; the capture is 1524px high. *)
Lemma C4_counterexample :
  In (EvEvaluate (of_Z 16) true (of_Z 1123) Sample.free_after
        (Some (of_Z 1524)))
     (fst (run (R := decimal_runtime) (Sample.free_world "onyx")
             (Sample.plain_cli "cv.json"))) /\
  map style_marginBottom (pageElements Sample.free_after)
  = [ Some "12px"; Some "12px"; None ] /\
  content_height (R := decimal_runtime) (of_Z 16) Sample.free_dom
  = of_Z (500 + 12 + 600 + 12 + 400) /\
  of_Z (500 + 12 + 600 + 12 + 400) <> of_Z (500 + 9 + 600 + 9 + 400) /\
  exists o,
    In (EvPdf o)
       (fst (run (R := decimal_runtime) (Sample.free_world "onyx")
               (Sample.plain_cli "cv.json"))) /\
    pdf_height o = "1524px".
Proof.
  split; [in_trace |]. split; [reflexivity |]. split; [reflexivity |].
  split; [discriminate |]. eexists. split; [in_trace | reflexivity].
Qed.

(* ================================================================== *)
(** * Further properties of the driver *)

(** ** The reachability poll *)




(* ------------------------------------------------------------------ *)
(** ** Detection of the address of the server *)

Lemma str_app_assoc (a b c : string) : (a ++ b) ++ c = a ++ b ++ c.
Proof. induction a; simpl; congruence. Qed.

Lemma str_app_nil_r (a : string) : a ++ "" = a.
Proof. induction a; simpl; congruence. Qed.

Lemma all_chars_app (p : ascii -> bool) (a b : string) :
  all_chars p (a ++ b) = (all_chars p a && all_chars p b)%bool.
Proof.
  induction a as [| c a IH]; simpl; [reflexivity |].
  rewrite IH. now rewrite andb_assoc.
Qed.

Lemma strip_prefix_split (p s r : string) :
  strip_prefix p s = Some r -> s = p ++ r.
Proof.
  revert s. induction p as [| a p IH]; intros s H; simpl in H.
  - now injection H as ->.
  - destruct s as [| b s]; [discriminate |].
    destruct (Ascii.eqb a b) eqn:E; [| discriminate].
    apply Ascii.eqb_eq in E. subst b. simpl. f_equal. now apply IH.
Qed.

Lemma digits_prefix_split (s : string) :
  exists rest,
    s = digits_prefix s ++ rest /\
    all_chars is_digit (digits_prefix s) = true /\
    starts_with_digit rest = false.
Proof.
  induction s as [| c s [rest [Hs [Hd Hr]]]]; simpl.
  - exists "". auto.
  - destruct (is_digit c) eqn:E.
    + exists rest. simpl. rewrite E, Hd. repeat split; auto. congruence.
    + exists (String c s). simpl. rewrite E. auto.
Qed.

Lemma digits_prefix_nonempty (s : string) :
  starts_with_digit s = true -> digits_prefix s <> "".
Proof. destruct s as [| c s]; simpl; [discriminate |]. intros ->. discriminate. Qed.

Lemma host_port_shape (s : string) (n : nat) (m : string) :
  host_port s n = Some m ->
  exists host port rest,
    s = host ++ ":" ++ port ++ rest /\
    m = host ++ ":" ++ port /\
    (n = 0%nat -> host <> "") /\
    all_chars not_space host = true /\
    port <> "" /\
    all_chars is_digit port = true /\
    starts_with_digit rest = false.
Proof.
  revert n m. induction s as [| c s IH]; intros n m H; cbn [host_port] in H.
  - discriminate.
  - destruct (negb (Nat.eqb n 0) && Ascii.eqb c ":" && starts_with_digit s)%bool
      eqn:E.
    + injection H as <-.
      apply andb_true_iff in E. destruct E as [E Hd].
      apply andb_true_iff in E. destruct E as [Hn Hc].
      apply Ascii.eqb_eq in Hc. subst c.
      destruct (digits_prefix_split s) as [rest [Hs [Hall Hrest]]].
      exists "", (digits_prefix s), rest. simpl.
      repeat split; auto.
      * now rewrite <- Hs.
      * intros ->. discriminate.
      * now apply digits_prefix_nonempty.
    + destruct (is_space c) eqn:Esp; [discriminate |].
      destruct (host_port s (S n)) as [m' |] eqn:Em; [| discriminate].
      injection H as <-.
      destruct (IH _ _ Em) as [host [port [rest [Hs [Hm [_ [Hh [Hp [Hd Hr]]]]]]]]].
      exists (String c host), port, rest.
      split; [rewrite Hs at 1; reflexivity |].
      split; [rewrite Hm; reflexivity |].
      split; [intros _; discriminate |].
      split; [| auto].
      cbn [all_chars]. unfold not_space at 1. now rewrite Esp.
Qed.

(** X2.  What the pattern for the address finds in a text is a part of
    that text made of the scheme http or https, a host of at least one
    character without white space, a colon, and all the digits that follow
    it, of which there is at least one. *)
Theorem find_url_shape (text m : string) :
  find_url text = Some m ->
  exists before scheme host port after,
    text = before ++ m ++ after /\
    m = scheme ++ host ++ ":" ++ port /\
    (scheme = "http://" \/ scheme = "https://") /\
    host <> "" /\
    all_chars not_space host = true /\
    port <> "" /\
    all_chars is_digit port = true /\
    starts_with_digit after = false.
Proof.
  induction text as [| c text IH]; intros H; cbn [find_url] in H.
  - discriminate.
  - destruct (url_here (String c text)) as [m' |] eqn:E.
    + injection H as ->. unfold url_here in E.
      destruct (strip_prefix "https://" (String c text)) as [r |] eqn:Es.
      * destruct (host_port r 0) as [hp |] eqn:Eh; [| discriminate].
        injection E as <-. apply strip_prefix_split in Es.
        destruct (host_port_shape _ _ _ Eh)
          as [host [port [rest [Hs [Hm [Hne [Hh [Hp [Hd Hr]]]]]]]]].
        exists "", "https://", host, port, rest.
        rewrite Es, Hs, Hm. repeat split; auto.
        cbn [append]. now rewrite !str_app_assoc.
      * destruct (strip_prefix "http://" (String c text)) as [r |] eqn:Es2;
          [| discriminate].
        destruct (host_port r 0) as [hp |] eqn:Eh; [| discriminate].
        injection E as <-. apply strip_prefix_split in Es2.
        destruct (host_port_shape _ _ _ Eh)
          as [host [port [rest [Hs [Hm [Hne [Hh [Hp [Hd Hr]]]]]]]]].
        exists "", "http://", host, port, rest.
        rewrite Es2, Hs, Hm. repeat split; auto.
        cbn [append]. now rewrite !str_app_assoc.
    + destruct (IH H)
        as [before [scheme [host [port [rest [Ht Hrest]]]]]].
      exists (String c before), scheme, host, port, rest.
      split; [simpl; now rewrite <- Ht | exact Hrest].
Qed.

Lemma find_url_shape_witness :
  find_url "  Local:   http://127.0.0.1:15180/" = Some "http://127.0.0.1:15180"
  /\ exists before after,
       "  Local:   http://127.0.0.1:15180/"
       = before ++ "http://127.0.0.1:15180" ++ after.
Proof.
  split; [reflexivity |].
  destruct (find_url_shape "  Local:   http://127.0.0.1:15180/"
              "http://127.0.0.1:15180" eq_refl)
    as [before [_ [_ [_ [after [H _]]]]]].
  exists before, after. exact H.
Defined.

Lemma strip_quotes_no_quote (s : string) :
  all_chars not_quote (strip_quotes s) = true.
Proof.
  induction s as [| c s IH]; simpl; [reflexivity |].
  destruct (is_quote c) eqn:E; [assumption |].
  simpl. unfold not_quote at 1. now rewrite E.
Qed.

Lemma strip_quotes_keeps (p : ascii -> bool) (s : string) :
  all_chars p s = true -> all_chars p (strip_quotes s) = true.
Proof.
  induction s as [| c s IH]; simpl; [reflexivity |].
  intros H. apply andb_true_iff in H. destruct H as [Hc Hs].
  destruct (is_quote c); simpl; [auto | rewrite Hc; auto].
Qed.

Lemma strip_quotes_id (s : string) :
  all_chars not_quote s = true -> strip_quotes s = s.
Proof.
  induction s as [| c s IH]; simpl; [reflexivity |].
  intros H. apply andb_true_iff in H. destruct H as [Hc Hs].
  unfold not_quote in Hc. apply negb_true_iff in Hc. rewrite Hc.
  now rewrite IH.
Qed.

Lemma emitted_text_app (a b : list server_event) :
  emitted_text (a ++ b) = emitted_text a ++ emitted_text b.
Proof.
  induction a as [| [d | d | m | code] a IH]; simpl; auto;
    now rewrite IH, str_app_assoc.
Qed.

Lemma server_loop_Ret (evs : list server_event) (output : string)
      (t : list event) (url : string) :
  server_loop evs output = (t, Ret url) ->
  exists evs1 data evs2 m,
    evs = (evs1 ++ Stdout data :: evs2)%list /\
    find_url (output ++ emitted_text evs1 ++ data) = Some m /\
    url = strip_quotes m.
Proof.
  revert output t.
  induction evs as [| [d | d | msg | code] evs IH]; intros output t H;
    cbn [server_loop] in H.
  - discriminate.
  - destruct (find_url (output ++ d)) as [m |] eqn:E.
    + injection H as <- <-. exists [], d, evs, m. simpl. auto.
    + destruct (IH _ _ H) as [evs1 [data [evs2 [m [-> [Hf ->]]]]]].
      exists (Stdout d :: evs1), data, evs2, m. simpl.
      rewrite !str_app_assoc in *. auto.
  - destruct (IH _ _ H) as [evs1 [data [evs2 [m [-> [Hf ->]]]]]].
    exists (Stderr d :: evs1), data, evs2, m. simpl.
    rewrite !str_app_assoc in *. auto.
  - discriminate.
  - unfold bind, emit in H.
    assert (Hrest : exists t', server_loop evs output = (t', Ret url)).
    { destruct code as [z |]; [destruct (z =? 0) |];
        try (destruct (server_loop evs output) as [t' r];
             injection H as <- ->; eauto).
      simpl in H. discriminate. }
    destruct Hrest as [t' Hrest].
    destruct (IH _ _ Hrest) as [evs1 [data [evs2 [m [-> [Hf ->]]]]]].
    exists (ProcExit code :: evs1), data, evs2, m. simpl. auto.
Qed.

Lemma digits_not_space (s : string) :
  all_chars is_digit s = true -> all_chars not_space s = true.
Proof.
  induction s as [| c s IH]; simpl; [reflexivity |].
  intros H. apply andb_true_iff in H. destruct H as [Hc Hs].
  rewrite (IH Hs), andb_true_r. unfold not_space, is_space, is_digit in *.
  apply andb_true_iff in Hc. destruct Hc as [H1 H2].
  apply Nat.leb_le in H1, H2.
  repeat match goal with
         | |- context [Nat.eqb ?a ?b] => destruct (Nat.eqb_spec a b); [lia |]
         end.
  reflexivity.
Qed.

(** A match of the pattern is a part of the text, begins with the scheme
    and holds no white space. *)
Lemma find_url_clean (text m : string) :
  find_url text = Some m ->
  exists before after,
    text = before ++ m ++ after /\
    (exists rest, m = "http://" ++ rest \/ m = "https://" ++ rest) /\
    all_chars not_space m = true.
Proof.
  induction text as [| c text IH]; intros H; cbn [find_url] in H.
  - discriminate.
  - destruct (url_here (String c text)) as [m' |] eqn:E.
    + injection H as ->. unfold url_here in E.
      assert (Hparts : exists scheme r hp,
                 (scheme = "http://" \/ scheme = "https://") /\
                 String c text = scheme ++ r /\
                 host_port r 0 = Some hp /\ m = scheme ++ hp).
      { destruct (strip_prefix "https://" (String c text)) as [r |] eqn:Es.
        - destruct (host_port r 0) as [hp |] eqn:Eh; [| discriminate].
          injection E as <-. apply strip_prefix_split in Es.
          exists "https://", r, hp. auto.
        - destruct (strip_prefix "http://" (String c text)) as [r |] eqn:Es2;
            [| discriminate].
          destruct (host_port r 0) as [hp |] eqn:Eh; [| discriminate].
          injection E as <-. apply strip_prefix_split in Es2.
          exists "http://", r, hp. auto. }
      destruct Hparts as [scheme [r [hp [Hsch [Ht [Eh ->]]]]]].
      destruct (host_port_shape _ _ _ Eh)
        as [host [port [rest [Hs [Hm [_ [Hh [_ [Hd _]]]]]]]]].
      exists "", rest. split; [| split].
      * rewrite Ht, Hs, Hm. cbn [append]. now rewrite !str_app_assoc.
      * exists hp. destruct Hsch as [-> | ->]; auto.
      * rewrite Hm, !all_chars_app, Hh, (digits_not_space _ Hd).
        destruct Hsch as [-> | ->]; reflexivity.
    + destruct (IH H) as [before [after [Ht Hrest]]].
      exists (String c before), after.
      split; [simpl; now rewrite <- Ht | exact Hrest].
Qed.

(** X3.  When the start of the server resolves, its address is a match of
    the pattern in what the child has written by then (to either stream,
    up to a chunk of standard output), with the quote characters deleted:
    it begins with http:// or https://, holds no white space and no quote,
    and the match is a part of all the child writes. *)
Theorem startViteServer_address (w : world) (port : Z) (t : list event)
        (url : string) :
  startViteServer w port = (t, Ret url) ->
  exists m before after,
    emitted_text (w_server_events w) = before ++ m ++ after /\
    url = strip_quotes m /\
    (exists rest, m = "http://" ++ rest \/ m = "https://" ++ rest) /\
    all_chars not_space url = true /\
    all_chars not_quote url = true /\
    (all_chars not_quote m = true -> url = m).
Proof.
  unfold startViteServer, bind, emit. intros H.
  destruct (server_loop (w_server_events w) "") as [t' r] eqn:E.
  injection H as <- ->.
  destruct (server_loop_Ret _ _ _ _ E) as [evs1 [data [evs2 [m [Hev [Hf ->]]]]]].
  cbn [append] in Hf.
  destruct (find_url_clean _ _ Hf) as [before [rest [Ht [Hsch Hsp]]]].
  exists m, before, (rest ++ emitted_text evs2).
  split.
  { rewrite Hev, emitted_text_app. cbn [emitted_text].
    rewrite <- str_app_assoc, Ht. now rewrite !str_app_assoc. }
  split; [reflexivity |].
  split; [exact Hsch |].
  split; [now apply strip_quotes_keeps |].
  split; [apply strip_quotes_no_quote | apply strip_quotes_id].
Qed.

Lemma startViteServer_address_witness :
  exists t,
    startViteServer (Sample.good_world JNull Sample.fixed_dom) 15180
    = (t, Ret "http://127.0.0.1:15180") /\
    exists m before after,
      emitted_text (w_server_events (Sample.good_world JNull Sample.fixed_dom))
      = before ++ m ++ after /\
      "http://127.0.0.1:15180" = strip_quotes m.
Proof.
  eexists. split; [reflexivity |].
  destruct (startViteServer_address
              (Sample.good_world JNull Sample.fixed_dom) 15180 _ _ eq_refl)
    as [m [before [after [Ht [Hu _]]]]].
  exists m, before, after. split; [exact Ht | exact Hu].
Defined.

(** X4.  An end of the child with code 0 or by a signal settles nothing:
    the start of the server ends as it does without those ends, so a child
    that only ends cleanly lets the start run into its timeout. *)
Theorem clean_exit_does_not_settle (evs : list server_event)
        (output : string) :
  snd (server_loop evs output)
  = snd (server_loop (drop_clean_exits evs) output) /\
  (forallb is_clean_exit evs = true ->
   snd (server_loop evs output)
   = Throw "Vite dev server failed to start within 60 seconds").
Proof.
  assert (H1 : forall output',
             snd (server_loop evs output')
             = snd (server_loop (drop_clean_exits evs) output')).
  { induction evs as [| [d | d | msg | code] evs IH]; intros output';
      cbn [server_loop drop_clean_exits filter is_clean_exit negb].
    - reflexivity.
    - fold (drop_clean_exits evs). cbn [server_loop].
      destruct (find_url (output' ++ d)); [reflexivity | apply IH].
    - fold (drop_clean_exits evs). cbn [server_loop]. apply IH.
    - reflexivity.
    - fold (drop_clean_exits evs). unfold bind, emit.
      destruct code as [z |]; [destruct (z =? 0) eqn:Ez |]; cbn [negb].
      + rewrite <- IH. now destruct (server_loop evs output').
      + cbn [server_loop]. unfold bind, emit. rewrite Ez. reflexivity.
      + rewrite <- IH. now destruct (server_loop evs output'). }
  split; [apply H1 |].
  intros Hall. rewrite H1.
  assert (Hnil : drop_clean_exits evs = []).
  { clear H1. induction evs as [| e evs IH]; [reflexivity |].
    cbn [forallb] in Hall. apply andb_true_iff in Hall.
    destruct Hall as [He Hall]. cbn [drop_clean_exits filter].
    rewrite He. cbn [negb]. now apply IH. }
  now rewrite Hnil.
Qed.

(* ------------------------------------------------------------------ *)
(** ** More on the output name and on the browser detection *)

(** X5.  The default output name is the input name exactly when the input
    name has no ending .json (in any case); with such an ending it is one
    character shorter than the input name, so the two differ. *)
Theorem default_output_name_differs (input : string) :
  (replace_json_ext input = input <->
   forall stem ext, input = stem ++ ext -> lower_string ext <> ".json") /\
  (forall stem ext,
      input = stem ++ ext -> lower_string ext = ".json" ->
      replace_json_ext input = stem ++ ".pdf" /\
      (String.length (replace_json_ext input) + 1 = String.length input)%nat).
Proof.
  assert (Hmatch : forall stem ext,
             input = stem ++ ext -> lower_string ext = ".json" ->
             replace_json_ext input = stem ++ ".pdf" /\
             (String.length (replace_json_ext input) + 1
              = String.length input)%nat).
  { intros stem ext -> Hext.
    rewrite (replace_json_ext_match stem ext Hext). split; [reflexivity |].
    rewrite !append_length.
    apply (f_equal String.length) in Hext.
    rewrite lower_string_length in Hext. simpl in *. lia. }
  split; [| exact Hmatch]. split.
  - intros Hsame stem ext Hsplit Hext.
    destruct (Hmatch stem ext Hsplit Hext) as [_ Hlen].
    rewrite Hsame in Hlen. lia.
  - apply replace_json_ext_nomatch.
Qed.

Lemma find_some_split {A} (f : A -> bool) (l : list A) (x : A) :
  find f l = Some x <->
  exists before after,
    l = (before ++ x :: after)%list /\
    f x = true /\
    Forall (fun y => f y = false) before.
Proof.
  induction l as [| y l IH]; simpl.
  - split; [discriminate |]. intros [[| b before] [after [H _]]]; discriminate.
  - destruct (f y) eqn:E.
    + split.
      * intros H. injection H as <-. exists [], l. auto.
      * intros [[| b before] [after [Hl [Hx Hb]]]].
        -- simpl in Hl. now injection Hl as ->.
        -- simpl in Hl. injection Hl as <- _. inversion Hb. congruence.
    + rewrite IH. split.
      * intros [before [after [-> [Hx Hb]]]].
        exists (y :: before), after. simpl. auto.
      * intros [[| b before] [after [Hl [Hx Hb]]]].
        -- simpl in Hl. injection Hl as <- _. congruence.
        -- simpl in Hl. injection Hl as <- ->. inversion Hb.
           exists before, after. auto.
Qed.

(** X6.  The detection answers a path exactly when that path is the
    CHROME_PATH override, not empty and present on the disk, or else, with
    no such override, the first candidate of the platform that is present
    on the disk.  So what it answers is always present on the disk, and on
    a platform other than darwin, linux and win32 only the override can be
    answered. *)
Theorem findSystemChrome_answer (w : world) (p : string) :
  (findSystemChrome w = Some p <->
   (w_env w "CHROME_PATH" = Some p /\ p <> "" /\ w_exists w p = true) \/
   ((forall q, w_env w "CHROME_PATH" = Some q ->
               q = "" \/ w_exists w q = false) /\
    exists before after,
      candidates w = (before ++ p :: after)%list /\
      w_exists w p = true /\
      Forall (fun cand => w_exists w cand = false) before)) /\
  (findSystemChrome w = Some p -> w_exists w p = true) /\
  (w_platform w <> "darwin" -> w_platform w <> "linux" ->
   w_platform w <> "win32" ->
   findSystemChrome w = Some p -> w_env w "CHROME_PATH" = Some p).
Proof.
  assert (Hiff :
    findSystemChrome w = Some p <->
    (w_env w "CHROME_PATH" = Some p /\ p <> "" /\ w_exists w p = true) \/
    ((forall q, w_env w "CHROME_PATH" = Some q ->
                q = "" \/ w_exists w q = false) /\
     exists before after,
       candidates w = (before ++ p :: after)%list /\
       w_exists w p = true /\
       Forall (fun cand => w_exists w cand = false) before)).
  { unfold findSystemChrome, chrome_path_usable.
    destruct (w_env w "CHROME_PATH") as [q |] eqn:Eq.
    - destruct (negb (is_empty q) && w_exists w q)%bool eqn:Eu.
      + apply andb_true_iff in Eu. destruct Eu as [Hne Hex].
        assert (Hq : q <> "") by (destruct q; [discriminate | discriminate]).
        split.
        * intros H. injection H as <-. left. auto.
        * intros [[H _] | [H _]]; [congruence |].
          destruct (H q eq_refl) as [H' | H']; congruence.
      + rewrite find_some_split. split.
        * intros H. right. split; [| exact H].
          intros q' Hq'. injection Hq' as <-.
          apply andb_false_iff in Eu. destruct Eu as [Hne | Hex]; [left | now right].
          destruct q; [reflexivity | discriminate].
        * intros [[H [Hne Hex]] | [_ H]]; [| exact H].
          injection H as ->. rewrite Hex, andb_true_r in Eu.
          destruct p; [congruence | discriminate].
    - rewrite find_some_split. split.
      + intros H. right. split; [discriminate | exact H].
      + intros [[H _] | [_ H]]; [discriminate | exact H]. }
  split; [exact Hiff |]. split.
  - intros H. apply Hiff in H.
    destruct H as [[_ [_ H]] | [_ [before [after [_ [H _]]]]]]; exact H.
  - intros Hd Hl Hw H. apply Hiff in H.
    destruct H as [[H _] | [_ [before [after [Hc _]]]]]; [exact H |].
    unfold candidates in Hc.
    apply String.eqb_neq in Hd, Hl, Hw. rewrite Hd, Hl, Hw in Hc.
    destruct before; discriminate.
Qed.

(* ------------------------------------------------------------------ *)
(** ** More on the merge of the overrides *)

(** X7.  Without a template and a format override (an empty one counts as
    none) the merge hands the parsed payload on as it is; a payload that is
    the JSON null makes the merge throw, overrides or not. *)
Theorem merge_without_overrides (c : cli) (parsed : jsval) :
  supplied (opt_template c) = false ->
  supplied (opt_format c) = false ->
  apply_overrides c parsed = (if nullish parsed then None else Some parsed) /\
  (forall c', apply_overrides c' JNull = None).
Proof.
  intros Ht Hf. split; [| reflexivity].
  unfold apply_overrides, member. rewrite Ht, Hf.
  destruct (nullish parsed); [reflexivity |].
  destruct (truthy_val (get_prop parsed "metadata")) eqn:E; [| reflexivity].
  now apply set_prop_id.
Qed.

Lemma merge_without_overrides_witness :
  apply_overrides (Sample.plain_cli "cv.json")
    (Sample.payload "onyx" "a4" 14 12)
  = Some (Sample.payload "onyx" "a4" 14 12).
Proof.
  exact (proj1 (merge_without_overrides (Sample.plain_cli "cv.json")
                  (Sample.payload "onyx" "a4" 14 12) eq_refl eq_refl)).
Defined.

Lemma set_prop_not_nullish (v v' : jsval) (k : string) (x : jsval) :
  set_prop v k x = Some v' -> nullish v = false /\ nullish v' = false.
Proof.
  destruct v; simpl; intros H; try discriminate; injection H as <-; auto.
Qed.

(** X8.  A merge that succeeds changes nothing of the payload but the
    template of the metadata and the format of the page settings in it:
    every other member of the payload, of the metadata and of the page
    settings is as parsed, so the raw margins are those of the file. *)
Theorem merge_frame {R : Runtime} (c : cli) (parsed rd : jsval) :
  apply_overrides c parsed = Some rd ->
  (forall k, k <> "metadata" -> get_prop rd k = get_prop parsed k) /\
  (forall k, k <> "template" -> k <> "page" ->
             opt_member (metadata_of rd) k
             = opt_member (metadata_of parsed) k) /\
  (forall k, k <> "format" ->
             opt_member (pageSettings_of rd) k
             = opt_member (pageSettings_of parsed) k) /\
  raw_marginX (pageSettings_of rd) = raw_marginX (pageSettings_of parsed) /\
  raw_marginY (pageSettings_of rd) = raw_marginY (pageSettings_of parsed).
Proof.
  intros H.
  assert (Hmain :
    (forall k, k <> "metadata" -> get_prop rd k = get_prop parsed k) /\
    (forall k, k <> "template" -> k <> "page" ->
               opt_member (metadata_of rd) k
               = opt_member (metadata_of parsed) k) /\
    (forall k, k <> "format" ->
               opt_member (pageSettings_of rd) k
               = opt_member (pageSettings_of parsed) k)).
  { unfold apply_overrides, member in H.
    destruct (nullish parsed) eqn:Hn; [discriminate |].
    unfold pageSettings_of, metadata_of.
    set (md := get_prop parsed "metadata") in *.
    destruct (truthy_val md) eqn:Htr.
    2:{ injection H as <-. fold md. auto. }
    pose proof (truthy_not_nullish _ Htr) as Hmdn.
    destruct (if supplied (opt_template c)
              then set_prop md "template" (override_value (opt_template c))
              else Some md) as [m1 |] eqn:E1; [| discriminate].
    assert (Hm1 : nullish m1 = false /\
                  forall k, k <> "template" -> get_prop m1 k = get_prop md k).
    { destruct (supplied (opt_template c)).
      - split; [apply (set_prop_not_nullish _ _ _ _ E1) |].
        intros k Hk. now apply (get_set_other _ _ _ _ _ E1).
      - injection E1 as <-. auto. }
    destruct Hm1 as [Hm1n Hm1].
    destruct (if supplied (opt_format c)
              then
                let page := get_prop m1 "page" in
                if truthy_val page
                then
                  match set_prop page "format"
                          (override_value (opt_format c)) with
                  | Some page' => set_prop m1 "page" page'
                  | None => None
                  end
                else Some m1
              else Some m1) as [m2 |] eqn:E2; [| discriminate].
    assert (Hrd : get_prop rd "metadata" = m2)
      by apply (get_set_same _ _ _ _ H).
    assert (Hm2 :
      nullish m2 = false /\
      (forall k, k <> "page" -> get_prop m2 k = get_prop m1 k) /\
      (forall k, k <> "format" ->
                 opt_member (get_prop m2 "page") k
                 = opt_member (get_prop m1 "page") k)).
    { destruct (supplied (opt_format c)); [| injection E2 as <-; auto].
      cbv zeta in E2.
      destruct (truthy_val (get_prop m1 "page")) eqn:Hp;
        [| injection E2 as <-; auto].
      destruct (set_prop (get_prop m1 "page") "format"
                  (override_value (opt_format c))) as [page' |] eqn:Ep;
        [| discriminate].
      split; [apply (set_prop_not_nullish _ _ _ _ E2) |]. split.
      - intros k Hk. now apply (get_set_other _ _ _ _ _ E2).
      - intros k Hk. rewrite (get_set_same _ _ _ _ E2).
        unfold opt_member.
        rewrite (proj2 (set_prop_not_nullish _ _ _ _ Ep)),
          (proj1 (set_prop_not_nullish _ _ _ _ Ep)).
        now apply (get_set_other _ _ _ _ _ Ep). }
    destruct Hm2 as [Hm2n [Hm2 Hpage]].
    rewrite Hrd. split; [| split].
    - intros k Hk. now apply (get_set_other _ _ _ _ _ H).
    - intros k Ht Hp. unfold opt_member. rewrite Hm2n, Hmdn.
      rewrite Hm2 by assumption. now apply Hm1.
    - intros k Hk.
      unfold opt_member at 2 4. rewrite Hm2n, Hmdn.
      rewrite Hpage by assumption. rewrite Hm1 by discriminate.
      reflexivity. }
  destruct Hmain as [H1 [H2 H3]].
  repeat split; auto; unfold raw_marginX, raw_marginY;
    rewrite H3 by discriminate; reflexivity.
Qed.

Lemma merge_frame_witness :
  exists rd,
    apply_overrides (Sample.override_cli "cv.json" "chikorita" "letter")
      (Sample.payload "onyx" "a4" 14 12) = Some rd /\
    raw_marginX (R := decimal_runtime) (pageSettings_of rd) = of_Z 14 /\
    get_prop rd "basics" = JObj [ ("name", JStr "Ada") ].
Proof.
  eexists. split; [reflexivity |].
  destruct (@merge_frame decimal_runtime
              (Sample.override_cli "cv.json" "chikorita" "letter")
              (Sample.payload "onyx" "a4" 14 12) _ eq_refl)
    as [H1 [_ [_ [HX _]]]].
  split; [rewrite HX; reflexivity |].
  rewrite H1 by discriminate. reflexivity.
Defined.

(** X9.  An empty template or format override is taken as not given: it
    is neither checked against the enumerated set nor merged, and the run
    is that of the command line without it. *)
Theorem empty_override_is_ignored {R : Runtime} (w : world) (c : cli) :
  run w c = run w (without_empty_overrides c).
Proof.
  destruct c as [t f h ps]. unfold without_empty_overrides, drop_empty.
  cbn [opt_template opt_format opt_help positionals].
  destruct t as [[| a t] |], f as [[| b f] |]; reflexivity.
Qed.

(* ------------------------------------------------------------------ *)
(** ** How a run ends *)

Section ExitLemmas.
Variable P : Z -> Prop.

Lemma exits_in_bind {A B} (m : M A) (k : A -> M B) :
  exits_in P m -> (forall a, exits_in P (k a)) -> exits_in P (bind m k).
Proof.
  unfold exits_in. destruct m as [t [a | e | code]]; simpl; intros Hm Hk c.
  - specialize (Hk a c). now destruct (k a).
  - discriminate.
  - intros H. injection H as <-. now apply Hm.
Qed.

Lemma exits_in_try_catch {A} (body : M A) (handler : string -> M A) :
  exits_in P body -> (forall e, exits_in P (handler e)) ->
  exits_in P (try_catch body handler).
Proof.
  unfold exits_in. destruct body as [t [a | e | code]]; simpl;
    intros Hb Hh c; auto.
  specialize (Hh e c). now destruct (handler e).
Qed.

Lemma exits_in_try_finally {A} (body : M A) (fin : M unit) :
  exits_in P body -> exits_in P fin -> exits_in P (try_finally body fin).
Proof.
  unfold exits_in.
  destruct body as [t [a | e | code]], fin as [t2 [u | e2 | code2]]; simpl;
    intros Hb Hf c H; try discriminate; injection H as <-;
    first [now apply Hb | now apply Hf].
Qed.

Lemma exits_in_no_exit {A} (m : M A) : no_exit m -> exits_in P m.
Proof. unfold no_exit, exits_in. intros H c Hc. now apply H in Hc. Qed.

Lemma exits_in_exit {A} (code : Z) : P code -> exits_in P (@exit A code).
Proof. unfold exits_in. simpl. intros H c Hc. now injection Hc as <-. Qed.

Lemma exits_in_server_loop (evs : list server_event) (output : string) :
  exits_in P (server_loop evs output).
Proof.
  revert output.
  induction evs as [| [d | d | msg | code] evs IH]; intros output;
    cbn [server_loop]; try (intros c; simpl; discriminate); auto.
  - destruct (find_url (output ++ d)); [intros c; discriminate | apply IH].
  - apply exits_in_bind; [intros c; discriminate |]. intros _.
    destruct code as [z |]; [destruct (z =? 0) |]; auto.
    intros c; discriminate.
Qed.
End ExitLemmas.

Ltac exits_step :=
  match goal with
  | |- exits_in _ (bind _ _) => apply exits_in_bind; [| intros ?]
  | |- exits_in _ (try_catch _ _) => apply exits_in_try_catch; [| intros ?]
  | |- exits_in _ (try_finally _ _) => apply exits_in_try_finally
  | |- exits_in _ (server_loop _ _) => apply exits_in_server_loop
  | |- exits_in _ (render _ _ _ _ _ _ _) =>
      apply exits_in_no_exit, render_no_exit
  | |- exits_in _ (exit _) => apply exits_in_exit
  | |- exits_in _ (emit _) => intros ? ?; discriminate
  | |- exits_in _ (perform _ _ _) => apply exits_in_no_exit, no_exit_perform
  | |- exits_in _ (ret _) => intros ? ?; discriminate
  | |- exits_in _ (throw _) => intros ? ?; discriminate
  | |- exits_in _ (if ?b then _ else _) => destruct b eqn:?
  | |- exits_in _ (match ?x with _ => _ end) => destruct x eqn:?
  end.

Lemma main_exits_1 {R : Runtime} (w : world) (rd : jsval)
      (template format : string) (ps : jsval) (out : string) :
  exits_in (fun code => code = 1) (main w rd template format ps out).
Proof.
  unfold main, startViteServer, waitForServer, acquire_browser, launch_local.
  repeat exits_step; reflexivity.
Qed.

Lemma script_exits {R : Runtime} (w : world) (c : cli) :
  exits_in (fun code => code = (if opt_help c then 0 else 1)) (script w c).
Proof.
  unfold script.
  destruct (opt_help c) eqn:Hh; cbn [orb].
  - repeat exits_step; reflexivity.
  - repeat first [ apply main_exits_1 | exits_step ]; reflexivity.
Qed.

(** X10.  The exit code of the process is 0 or 1; with the help flag it is
    0, and an invocation without the help flag and without an input file
    ends with 1 after the usage text. *)
Theorem exit_code_zero_or_one {R : Runtime} (w : world) (c : cli) :
  (snd (run w c) = 0 \/ snd (run w c) = 1) /\
  (opt_help c = true -> run w c = ([EvUsage], 0)) /\
  (opt_help c = false -> positionals c = [] -> run w c = ([EvUsage], 1)).
Proof.
  split; [| split].
  - pose proof (script_exits w c) as H. unfold run, exits_in in *.
    destruct (script w c) as [t [a | e | code]]; cbn [snd] in *; auto.
    specialize (H code eq_refl). destruct (opt_help c); auto.
  - intros Hh. unfold run, script. now rewrite Hh.
  - intros Hh Hp. unfold run, script. now rewrite Hh, Hp.
Qed.

Lemma bind_Ret {A B} (m : M A) (k : A -> M B) (t : list event) (b : B) :
  bind m k = (t, Ret b) ->
  exists t1 a t2, m = (t1, Ret a) /\ k a = (t2, Ret b) /\ t = (t1 ++ t2)%list.
Proof.
  destruct m as [t1 [a | e | code]]; simpl; try discriminate.
  destruct (k a) as [t2 r] eqn:E. intros H. injection H as <- ->.
  exists t1, a, t2. auto.
Qed.

Lemma try_finally_Ret {A} (body : M A) (fin : M unit) (t : list event)
      (b : A) :
  try_finally body fin = (t, Ret b) ->
  exists t1 t2 u,
    body = (t1, Ret b) /\ fin = (t2, Ret u) /\ t = (t1 ++ t2)%list.
Proof.
  destruct body as [t1 [a | e | code]], fin as [t2 [u | e2 | code2]]; simpl;
    try discriminate.
  intros H. injection H as <- <-. exists t1, t2, u. auto.
Qed.

Lemma emit_Ret (e : event) (t : list event) (u : unit) :
  emit e = (t, Ret u) -> t = [e].
Proof. unfold emit. intros H. now injection H as <-. Qed.

Lemma perform_Ret (w : world) (s : step) (e : event) (t : list event)
      (u : unit) :
  perform w s e = (t, Ret u) -> t = [e].
Proof.
  unfold perform. destruct (w_fails w s); [discriminate | apply emit_Ret].
Qed.

Lemma bind_emit_Ret {B} (e : event) (k : unit -> M B) (t : list event)
      (b : B) :
  bind (emit e) k = (t, Ret b) ->
  exists t2, k tt = (t2, Ret b) /\ t = e :: t2.
Proof.
  unfold bind, emit. destruct (k tt) as [t2 r]. intros H.
  injection H as <- ->. eauto.
Qed.

Lemma bind_perform_Ret {B} (w : world) (s : step) (e : event)
      (k : unit -> M B) (t : list event) (b : B) :
  bind (perform w s e) k = (t, Ret b) ->
  exists t2, k tt = (t2, Ret b) /\ t = e :: t2.
Proof.
  unfold perform. destruct (w_fails w s); [discriminate |].
  apply bind_emit_Ret.
Qed.

Ltac next_Ret H :=
  first
    [ apply bind_perform_Ret in H
    | apply bind_emit_Ret in H ];
  let t2 := fresh "t" in
  destruct H as [t2 [H ->]]; cbv beta in H.

(** A body of the [try] that returns ends with the capture, the closing of
    the page, the writing of the file and the last log line. *)
Lemma render_page_Ret {R : Runtime} (w : world) (dims : dimensions)
      (template format : string) (ps : jsval) (url out : string)
      (t : list event) :
  render_page w dims template format ps url out = (t, Ret tt) ->
  exists before,
    t = (before
           ++ [ EvPdf (capture_request dims template format ps (w_dom w));
                EvPageClose; EvWriteFile out;
                EvLog (line_feed ++ "PDF saved to: " ++ out) ])%list.
Proof.
  unfold render_page, capture_request. cbv zeta.
  destruct (compute_margins template ps) as [marginX marginY].
  cbn [fst snd].
  destruct (geometry_pass marginY (String.eqb format "free-form")
              (of_Z (height dims)) (w_dom w))
    as [after contentHeight].
  cbn [fst snd]. intros H.
  do 2 next_Ret H.
  apply bind_Ret in H. destruct H as [tf [u [t5 [Hf [H ->]]]]].
  do 5 next_Ret H.
  apply emit_Ret in H. subst.
  exists ([ EvLog "Loading preview..."; EvGoto url ]
          ++ tf
          ++ [ EvEvaluate marginY (String.eqb format "free-form")
                 (of_Z (height dims)) after contentHeight;
               EvLog "Generating PDF..." ])%list.
  cbn [app]. rewrite <- app_assoc. reflexivity.
Qed.

Lemma render_Ret {R : Runtime} (w : world) (rd : jsval)
      (template format : string) (ps : jsval) (url out : string)
      (t : list event) :
  render w rd template format ps url out = (t, Ret tt) ->
  exists before o,
    t = (before
           ++ [ EvPdf o; EvPageClose; EvWriteFile out;
                EvLog (line_feed ++ "PDF saved to: " ++ out) ])%list.
Proof.
  unfold render. intros H.
  do 2 next_Ret H.
  destruct (dimensions_of format) as [dims |]; [| discriminate].
  next_Ret H.
  destruct (render_page_Ret _ _ _ _ _ _ _ _ H) as [before ->].
  exists ([ EvNewPage; EvInject rd; EvSetViewport dims ] ++ before)%list.
  eexists. cbn [app]. reflexivity.
Qed.

Lemma main_Ret {R : Runtime} (w : world) (rd : jsval)
      (template format : string) (ps : jsval) (out : string)
      (t : list event) :
  main w rd template format ps out = (t, Ret tt) ->
  exists before url tr,
    t = (before ++ tr ++ [ EvBrowserClose; EvKillServer ])%list /\
    render w rd template format ps url out = (tr, Ret tt).
Proof.
  unfold main. intros H.
  next_Ret H.
  apply bind_Ret in H. destruct H as [ts [url [t1 [_ [H ->]]]]].
  next_Ret H.
  apply bind_Ret in H. destruct H as [tw [u1 [t2 [_ [H ->]]]]].
  apply bind_Ret in H. destruct H as [ti [u2 [t3 [_ [H ->]]]]].
  apply bind_Ret in H. destruct H as [ta [u3 [t4 [_ [H ->]]]]].
  apply try_finally_Ret in H. destruct H as [tr [tfin [u4 [Hr [Hfin ->]]]]].
  next_Ret Hfin. apply emit_Ret in Hfin. subst.
  exists (EvLog "Starting Vite dev server..."
          :: ts ++ EvLog ("Vite server running at " ++ url) :: tw ++ ti ++ ta)%list,
    url, tr.
  split; [| exact Hr].
  cbn [app]. f_equal. rewrite <- !app_assoc. cbn [app].
  do 2 f_equal. rewrite <- !app_assoc. reflexivity.
Qed.

(** X11.  A run without the help flag that ends with exit code 0 has, as
    its last effects and in this order, captured the PDF, closed the page,
    written the file at the output path, logged it, closed the browser and
    killed the server. *)
Theorem successful_run_ends_clean {R : Runtime} (w : world) (c : cli) :
  opt_help c = false ->
  snd (run w c) = 0 ->
  exists before o,
    fst (run w c)
    = (before
         ++ [ EvPdf o; EvPageClose; EvWriteFile (outputPath w c);
              EvLog (line_feed ++ "PDF saved to: " ++ outputPath w c);
              EvBrowserClose; EvKillServer ])%list /\
    server_running (fst (run w c)) false = false.
Proof.
  intros Hh H0.
  assert (Hshape : exists before o,
             fst (run w c)
             = (before
                  ++ [ EvPdf o; EvPageClose; EvWriteFile (outputPath w c);
                       EvLog (line_feed ++ "PDF saved to: "
                              ++ outputPath w c);
                       EvBrowserClose; EvKillServer ])%list).
  { pose proof (script_exits w c) as Hex. rewrite Hh in Hex.
    unfold run in *. destruct (script w c) as [t r] eqn:E. cbn [fst snd] in *.
    destruct r as [[] | e | code]; [| discriminate |].
    2:{ specialize (Hex code eq_refl). cbn [snd] in Hex. lia. }
    clear H0 Hex. unfold script in E. rewrite Hh in E. cbn [orb] in E.
    destruct (Nat.eqb (Datatypes.length (positionals c)) 0);
      [next_Ret E; discriminate |].
    destruct (supplied (opt_template c) && _)%bool;
      [next_Ret E; discriminate |].
    destruct (supplied (opt_format c) && _)%bool;
      [next_Ret E; discriminate |].
    do 2 next_Ret E.
    destruct (w_read_json w (inputPath w c)) as [parsed |];
      [| next_Ret E; discriminate].
    destruct (apply_overrides c parsed) as [rd |]; [| discriminate].
    next_Ret E.
    destruct (main w rd (effective_template rd) (effective_format rd)
                (pageSettings_of rd) (outputPath w c))
      as [tm [[] | e | code]] eqn:Em; cbn [try_catch] in E.
    - injection E as <-.
      destruct (main_Ret _ _ _ _ _ _ _ Em) as [before [url [tr [-> Hr]]]].
      destruct (render_Ret _ _ _ _ _ _ _ _ Hr) as [before' [o ->]].
      exists (EvLog ("Reading: " ++ inputPath w c)
              :: EvReadFile (inputPath w c)
              :: EvLog ("Template: " ++ effective_template rd
                        ++ ", Format: " ++ effective_format rd)
              :: before ++ before')%list, o.
      cbn [app]. do 3 f_equal. rewrite <- !app_assoc. reflexivity.
    - unfold bind, emit, exit in E. discriminate.
    - discriminate. }
  destruct Hshape as [before [o Hshape]].
  exists before, o. split; [exact Hshape |].
  rewrite Hshape, server_running_app. reflexivity.
Qed.

Lemma successful_run_ends_clean_witness :
  snd (run (R := decimal_runtime) Sample.a4_world (Sample.plain_cli "cv.json"))
  = 0 /\
  exists before o,
    fst (run (R := decimal_runtime) Sample.a4_world
           (Sample.plain_cli "cv.json"))
    = (before
         ++ [ EvPdf o; EvPageClose; EvWriteFile "/work/cv.pdf";
              EvLog (line_feed ++ "PDF saved to: /work/cv.pdf");
              EvBrowserClose; EvKillServer ])%list.
Proof.
  split; [reflexivity |].
  destruct (@successful_run_ends_clean decimal_runtime Sample.a4_world
              (Sample.plain_cli "cv.json") eq_refl eq_refl)
    as [before [o [H _]]].
  exists before, o. exact H.
Defined.

(** X12.  When the input file cannot be read or parsed, or the merge of
    the overrides throws, a run without the help flag and with an input
    file named ends with exit code 1 and has neither asked for a server or
    a browser nor touched a page or the output file. *)
Theorem input_error_is_fatal_early {R : Runtime} (w : world) (c : cli) :
  opt_help c = false ->
  positionals c <> [] ->
  settings_of w c = None ->
  snd (run w c) = 1 /\
  Forall (fun e => is_process_event e = false /\ page_kind e = None)
    (fst (run w c)).
Proof.
  intros Hh Hp Hs. unfold run, script. rewrite Hh. cbn [orb].
  destruct (positionals c) as [| p0 ps] eqn:Ep; [congruence |].
  cbn [Datatypes.length Nat.eqb].
  destruct (supplied (opt_template c) && _)%bool;
    [cbn; split; [reflexivity | repeat constructor] |].
  destruct (supplied (opt_format c) && _)%bool;
    [cbn; split; [reflexivity | repeat constructor] |].
  unfold settings_of in Hs.
  destruct (w_read_json w (inputPath w c)) as [parsed |].
  - rewrite Hs. cbn. split; [reflexivity | repeat constructor].
  - cbn. split; [reflexivity | repeat constructor].
Qed.

Lemma input_error_is_fatal_early_witness :
  snd (run (R := decimal_runtime)
         (Sample.good_world JNull Sample.fixed_dom)
         (Sample.plain_cli "cv.json")) = 1.
Proof.
  exact (proj1 (@input_error_is_fatal_early decimal_runtime
                  (Sample.good_world JNull Sample.fixed_dom)
                  (Sample.plain_cli "cv.json") eq_refl
                  ltac:(discriminate) eq_refl)).
Defined.

(* ------------------------------------------------------------------ *)
(** ** The server, the browser and the navigation *)

Lemma is_empty_true (s : string) : is_empty s = true -> s = "".
Proof. destruct s; [reflexivity | discriminate]. Qed.

Lemma is_empty_false (s : string) : is_empty s = false -> s <> "".
Proof. destruct s; simpl; [discriminate | intros _ H; discriminate H]. Qed.

Lemma acquire_browser_process {R : Runtime} (w : world) :
  Forall (process_expected w) (fst (acquire_browser w)).
Proof.
  unfold acquire_browser, launch_local.
  destruct (w_env w "PRINTER_ENDPOINT") as [endpoint |] eqn:Eenv.
  - destruct (is_empty endpoint) eqn:Eempty; cbn [negb].
    + apply is_empty_true in Eempty. subst endpoint.
      destruct (findSystemChrome w) as [path |] eqn:Ec.
      * destruct (w_launch_ok w) eqn:El; repeat trace_step; auto.
        repeat split; auto. intros q Hq. congruence.
      * repeat trace_step; auto.
    + apply is_empty_false in Eempty.
      destruct (w_connect_ok w) eqn:Eok; repeat trace_step; auto.
  - destruct (findSystemChrome w) as [path |] eqn:Ec.
    + destruct (w_launch_ok w) eqn:El; repeat trace_step; auto.
      repeat split; auto. intros q Hq. congruence.
    + repeat trace_step; auto.
Qed.

Lemma main_process {R : Runtime} (w : world) (rd : jsval)
      (template format : string) (ps : jsval) (out : string) :
  Forall (process_expected w) (fst (main w rd template format ps out)).
Proof.
  unfold main.
  apply Forall_bind; [apply Forall_emit; exact I | intros _ _].
  apply Forall_bind.
  { unfold startViteServer. apply Forall_bind;
      [apply Forall_emit; reflexivity | intros _ _].
    apply Forall_server_loop. intros code. exact I. }
  intros url Hurl.
  apply Forall_bind; [apply Forall_emit; exact I | intros _ _].
  apply Forall_bind.
  { unfold waitForServer. destruct (poll _ _ _ _ _); constructor. }
  intros [] Hwait.
  apply Forall_bind; [destruct (w_import_ok w); constructor |].
  intros [] Himport.
  assert (Hi : w_import_ok w = true)
    by (destruct (w_import_ok w); [reflexivity | discriminate]).
  apply Forall_bind; [apply acquire_browser_process | intros _ _].
  apply Forall_try_finally.
  - unfold render, render_page. repeat trace_step; auto.
  - repeat trace_step; auto.
Qed.

Lemma run_process {R : Runtime} (w : world) (c : cli) (e : event) :
  In e (fst (run w c)) -> process_expected w e.
Proof.
  intros H. unfold run in H.
  assert (HF : Forall (process_expected w) (fst (script w c))).
  { unfold script.
    repeat first [ apply main_process | trace_step ]; exact I. }
  destruct (script w c) as [t r]. cbn [fst] in *.
  rewrite Forall_forall in HF. now apply HF.
Qed.

Lemma findSystemChrome_present (w : world) (p : string) :
  findSystemChrome w = Some p -> w_exists w p = true.
Proof.
  unfold findSystemChrome, chrome_path_usable.
  destruct (w_env w "CHROME_PATH") as [q |].
  - destruct (negb (is_empty q) && w_exists w q)%bool eqn:E.
    + intros H. injection H as <-. apply andb_true_iff in E. tauto.
    + intros H. now apply find_some in H.
  - intros H. now apply find_some in H.
Qed.

(** X13.  The server is spawned on the port 15173 plus the random offset.
    A browser is connected to only at the PRINTER_ENDPOINT, which is then
    set and not empty; a browser is launched only when PRINTER_ENDPOINT is
    unset or empty, and only from the path the detection answers, which is
    present on the disk.  No run does both. *)
Theorem browser_mode_exclusive {R : Runtime} (w : world) (c : cli) :
  (forall port, In (EvSpawnServer port) (fst (run w c)) ->
                port = 15173 + w_random w) /\
  (forall endpoint, In (EvConnect endpoint) (fst (run w c)) ->
                    w_env w "PRINTER_ENDPOINT" = Some endpoint /\
                    endpoint <> "") /\
  (forall path, In (EvLaunch path) (fst (run w c)) ->
                (forall endpoint, w_env w "PRINTER_ENDPOINT" = Some endpoint ->
                                  endpoint = "") /\
                findSystemChrome w = Some path /\
                w_exists w path = true) /\
  (forall endpoint path,
      In (EvConnect endpoint) (fst (run w c)) ->
      In (EvLaunch path) (fst (run w c)) -> False).
Proof.
  repeat split.
  - intros port H. exact (run_process w c _ H).
  - now destruct (run_process w c _ H).
  - now destruct (run_process w c _ H) as [_ [? _]].
  - now destruct (run_process w c _ H).
  - now destruct (run_process w c _ H) as [_ [? _]].
  - destruct (run_process w c _ H) as [_ [? _]].
    now apply findSystemChrome_present.
  - intros endpoint path Hc Hl.
    destruct (run_process w c _ Hc) as [He [Hne _]].
    destruct (run_process w c _ Hl) as [Hl' _].
    apply Hne. now apply Hl'.
Qed.

(** X14.  The page is sent only to the address with which the start of
    the server resolved, and only after the reachability poll of that
    address has succeeded and the browser library was imported. *)
Theorem navigation_target {R : Runtime} (w : world) (c : cli)
        (url : string) :
  In (EvGoto url) (fst (run w c)) ->
  snd (startViteServer w (15173 + w_random w)) = Ret url /\
  snd (waitForServer w url 15000) = Ret tt /\
  w_import_ok w = true.
Proof. intros H. exact (run_process w c _ H). Qed.

Lemma navigation_target_witness :
  In (EvGoto "http://127.0.0.1:15180")
     (fst (run (R := decimal_runtime) Sample.a4_world
             (Sample.plain_cli "cv.json"))) /\
  snd (startViteServer Sample.a4_world (15173 + w_random Sample.a4_world))
  = Ret "http://127.0.0.1:15180".
Proof.
  assert (H : In (EvGoto "http://127.0.0.1:15180")
                (fst (run (R := decimal_runtime) Sample.a4_world
                        (Sample.plain_cli "cv.json")))) by in_trace.
  split; [exact H |].
  exact (proj1 (@navigation_target decimal_runtime Sample.a4_world
                  (Sample.plain_cli "cv.json") _ H)).
Defined.

(* ------------------------------------------------------------------ *)
(** ** The order of the operations on the page *)

Lemma page_kinds_app (t1 t2 : list event) :
  page_kinds (t1 ++ t2) = (page_kinds t1 ++ page_kinds t2)%list.
Proof. unfold page_kinds. apply flat_map_app. Qed.

Lemma page_kinds_none (t : list event) :
  Forall (fun e => page_kind e = None) t -> page_kinds t = [].
Proof.
  induction 1 as [| e t He _ IH]; [reflexivity |].
  unfold page_kinds in *. cbn [flat_map]. now rewrite He, IH.
Qed.

Lemma in_order_bind {A B} (m : M A) (k : A -> M B) :
  Forall (fun e => page_kind e = None) (fst m) ->
  (forall a, in_order (fst (k a))) ->
  in_order (fst (bind m k)).
Proof.
  intros Hm Hk. apply page_kinds_none in Hm. unfold in_order in *.
  destruct m as [t1 [a | e | code]]; cbn [fst] in *; simpl.
  - destruct (Hk a) as [n [Hn Hs]]. destruct (k a) as [t2 r]. cbn [fst] in *.
    exists n. now rewrite page_kinds_app, Hm, Hs.
  - exists 0%nat. split; [lia | now rewrite Hm].
  - exists 0%nat. split; [lia | now rewrite Hm].
Qed.

Lemma in_order_try_catch {A} (body : M A) (handler : string -> M A) :
  in_order (fst body) ->
  (forall e, Forall (fun e => page_kind e = None) (fst (handler e))) ->
  in_order (fst (try_catch body handler)).
Proof.
  intros Hb Hh. unfold in_order in *.
  destruct body as [t1 [a | e | code]]; cbn [fst] in *; simpl; auto.
  specialize (Hh e). apply page_kinds_none in Hh.
  destruct (handler e) as [t2 r]. cbn [fst] in *.
  destruct Hb as [n [Hn Hs]]. exists n.
  now rewrite page_kinds_app, Hh, app_nil_r.
Qed.

Lemma in_order_try_finally {A} (body : M A) (fin : M unit) :
  in_order (fst body) ->
  Forall (fun e => page_kind e = None) (fst fin) ->
  in_order (fst (try_finally body fin)).
Proof.
  intros Hb Hf. apply page_kinds_none in Hf. unfold in_order in *.
  destruct body as [t1 [a | e | code]], fin as [t2 [u | e2 | code2]];
    cbn [fst] in *; simpl; auto;
    destruct Hb as [n [Hn Hs]]; exists n;
    now rewrite page_kinds_app, Hf, app_nil_r.
Qed.

Lemma in_order_none (t : list event) :
  Forall (fun e => page_kind e = None) t -> in_order t.
Proof.
  intros H. exists 0%nat. split; [lia | now apply page_kinds_none].
Qed.

Lemma render_in_order {R : Runtime} (w : world) (rd : jsval)
      (template format : string) (ps : jsval) (url out : string) :
  in_order (fst (render w rd template format ps url out)).
Proof.
  unfold render, render_page, perform, in_order.
  destruct (w_fails w StNewPage); [exists 0%nat; split; [lia | reflexivity] |].
  destruct (w_fails w StInject); [exists 1%nat; split; [lia | reflexivity] |].
  destruct (dimensions_of format) as [dims |];
    [| exists 2%nat; split; [lia | reflexivity]].
  destruct (compute_margins template ps) as [marginX marginY].
  destruct (geometry_pass marginY (String.eqb format "free-form")
              (of_Z (height dims)) (w_dom w))
    as [after contentHeight].
  destruct (w_fails w StViewport); [exists 2%nat; split; [lia | reflexivity] |].
  destruct (w_fails w StGoto); [exists 3%nat; split; [lia | reflexivity] |].
  destruct (w_fonts_ready w);
    (destruct (w_fails w StEvaluate);
     [exists 4%nat; split; [lia | reflexivity] |];
     destruct (w_fails w StPdf);
     [exists 5%nat; split; [lia | reflexivity] |];
     destruct (w_fails w StPageClose);
     [exists 6%nat; split; [lia | reflexivity] |];
     destruct (w_fails w StWrite);
     [exists 7%nat; split; [lia | reflexivity] |];
     exists 8%nat; split; [lia | reflexivity]).
Qed.

Ltac no_page_operation :=
  repeat first [ apply Forall_server_loop; intros | trace_step ];
  try reflexivity.

Ltac order_step :=
  match goal with
  | |- in_order (fst (render _ _ _ _ _ _ _)) => apply render_in_order
  | |- in_order (fst (bind _ _)) =>
      apply in_order_bind; [no_page_operation | intros ?]
  | |- in_order (fst (try_catch _ _)) =>
      apply in_order_try_catch; [| intros ?; no_page_operation]
  | |- in_order (fst (try_finally _ _)) =>
      apply in_order_try_finally; [| no_page_operation]
  | |- in_order (fst (if ?b then _ else _)) => destruct b eqn:?
  | |- in_order (fst (match ?x with _ => _ end)) => destruct x eqn:?
  | |- in_order (fst (exit _)) => apply in_order_none; constructor
  | |- in_order (fst (throw _)) => apply in_order_none; constructor
  | |- in_order (fst (emit _)) =>
      apply in_order_none; repeat constructor
  end.

Lemma script_in_order {R : Runtime} (w : world) (c : cli) :
  in_order (fst (script w c)).
Proof.
  unfold script, main, startViteServer, waitForServer, acquire_browser,
    launch_local.
  repeat order_step.
Qed.

(** X15.  The operations of a run on the page and on the output file are
    an initial part of this list, each at most once and in this order: new
    page, registration of the payload, viewport, navigation, geometry pass,
    capture, closing of the page, writing of the file.  So the payload is
    registered before the navigation, and a file is written only after the
    capture. *)
Theorem page_operations_in_order {R : Runtime} (w : world) (c : cli) :
  exists n, (n <= 8)%nat /\ page_kinds (fst (run w c)) = seq 0 n.
Proof.
  pose proof (script_in_order w c) as H. unfold run.
  destruct (script w c) as [t r]. exact H.
Qed.

(* ------------------------------------------------------------------ *)
(** ** The font signal *)

Lemma without_warnings_app (t1 t2 : list event) :
  without_warnings (t1 ++ t2)
  = (without_warnings t1 ++ without_warnings t2)%list.
Proof. unfold without_warnings. apply filter_app. Qed.

Lemma same_refl {A} (m : M A) : same_but_warnings m m.
Proof. split; reflexivity. Qed.

Lemma same_bind {A B} (m1 m2 : M A) (k1 k2 : A -> M B) :
  same_but_warnings m1 m2 ->
  (forall a, same_but_warnings (k1 a) (k2 a)) ->
  same_but_warnings (bind m1 k1) (bind m2 k2).
Proof.
  unfold same_but_warnings.
  destruct m1 as [t1 r1], m2 as [t2 r2]. cbn [fst snd].
  intros [<- Ht] Hk.
  destruct r1 as [a | e | code]; simpl; auto.
  destruct (Hk a) as [Hr Hw].
  destruct (k1 a) as [u1 s1], (k2 a) as [u2 s2]. cbn [fst snd] in *.
  split; [assumption |]. now rewrite !without_warnings_app, Ht, Hw.
Qed.

Lemma same_try_catch {A} (b1 b2 : M A) (h1 h2 : string -> M A) :
  same_but_warnings b1 b2 ->
  (forall e, same_but_warnings (h1 e) (h2 e)) ->
  same_but_warnings (try_catch b1 h1) (try_catch b2 h2).
Proof.
  unfold same_but_warnings.
  destruct b1 as [t1 r1], b2 as [t2 r2]. cbn [fst snd].
  intros [<- Ht] Hh.
  destruct r1 as [a | e | code]; simpl; auto.
  destruct (Hh e) as [Hr Hw].
  destruct (h1 e) as [u1 s1], (h2 e) as [u2 s2]. cbn [fst snd] in *.
  split; [assumption |]. now rewrite !without_warnings_app, Ht, Hw.
Qed.

Lemma same_try_finally {A} (b1 b2 : M A) (f1 f2 : M unit) :
  same_but_warnings b1 b2 ->
  same_but_warnings f1 f2 ->
  same_but_warnings (try_finally b1 f1) (try_finally b2 f2).
Proof.
  unfold same_but_warnings.
  destruct b1 as [t1 r1], b2 as [t2 r2], f1 as [u1 s1], f2 as [u2 s2].
  cbn [fst snd]. intros [<- Ht] [<- Hu].
  destruct r1 as [a | e | code], s1 as [u | e' | code']; simpl; auto;
    now rewrite !without_warnings_app, Ht, Hu.
Qed.

Lemma poll_set_fonts (b : bool) (w : world) (n k : nat) (e T : Z) :
  poll (set_fonts b w) n k e T = poll w n k e T.
Proof.
  revert k e. induction n as [| n IH]; intros k e; [reflexivity |].
  cbn [poll]. rewrite IH. reflexivity.
Qed.

Lemma waitForServer_set_fonts (b : bool) (w : world) (url : string) (T : Z) :
  waitForServer (set_fonts b w) url T = waitForServer w url T.
Proof. unfold waitForServer. now rewrite poll_set_fonts. Qed.

Lemma acquire_browser_set_fonts {R : Runtime} (b : bool) (w : world) :
  acquire_browser (set_fonts b w) = acquire_browser w.
Proof. reflexivity. Qed.

Lemma render_set_fonts {R : Runtime} (b : bool) (w : world) (rd : jsval)
      (template format : string) (ps : jsval) (url out : string) :
  same_but_warnings (render (set_fonts b w) rd template format ps url out)
    (render w rd template format ps url out).
Proof.
  unfold render, render_page, perform, same_but_warnings.
  cbn [set_fonts w_fails w_fonts_ready w_dom].
  destruct (w_fails w StNewPage); [split; reflexivity |].
  destruct (w_fails w StInject); [split; reflexivity |].
  destruct (dimensions_of format) as [dims |]; [| split; reflexivity].
  destruct (compute_margins template ps) as [marginX marginY].
  destruct (geometry_pass marginY (String.eqb format "free-form")
              (of_Z (height dims)) (w_dom w))
    as [after contentHeight].
  destruct (w_fails w StViewport); [split; reflexivity |].
  destruct (w_fails w StGoto); [split; reflexivity |].
  destruct b, (w_fonts_ready w);
    (destruct (w_fails w StEvaluate); [split; reflexivity |];
     destruct (w_fails w StPdf); [split; reflexivity |];
     destruct (w_fails w StPageClose); [split; reflexivity |];
     destruct (w_fails w StWrite); split; reflexivity).
Qed.

Lemma main_set_fonts {R : Runtime} (b : bool) (w : world) (rd : jsval)
      (template format : string) (ps : jsval) (out : string) :
  same_but_warnings (main (set_fonts b w) rd template format ps out)
    (main w rd template format ps out).
Proof.
  unfold main.
  change (w_random (set_fonts b w)) with (w_random w).
  change (w_import_ok (set_fonts b w)) with (w_import_ok w).
  change (startViteServer (set_fonts b w)) with (startViteServer w).
  rewrite acquire_browser_set_fonts.
  apply same_bind; [apply same_refl | intros _].
  apply same_bind; [apply same_refl | intros url].
  apply same_bind; [apply same_refl | intros _].
  rewrite waitForServer_set_fonts.
  apply same_bind; [apply same_refl | intros _].
  apply same_bind; [apply same_refl | intros _].
  apply same_bind; [apply same_refl | intros _].
  apply same_try_finally; [apply render_set_fonts | apply same_refl].
Qed.

Ltac same_step :=
  match goal with
  | |- same_but_warnings (main _ _ _ _ _ _) (main _ _ _ _ _ _) =>
      apply main_set_fonts
  | |- same_but_warnings (bind _ _) (bind _ _) =>
      apply same_bind; [apply same_refl | intros ?]
  | |- same_but_warnings (try_catch _ _) (try_catch _ _) =>
      apply same_try_catch; [| intros ?; apply same_refl]
  | |- same_but_warnings
         (if ?b then _ else _) (if ?b then _ else _) => destruct b
  | |- same_but_warnings
         (match ?x with _ => _ end) (match ?x with _ => _ end) => destruct x
  | |- same_but_warnings ?m ?m => apply same_refl
  end.

Lemma no_warning_with_fonts {R : Runtime} (w : world) (c : cli) :
  Forall (fun e => is_warn e = false) (fst (script (set_fonts true w) c)).
Proof.
  unfold script, main, startViteServer, waitForServer, acquire_browser,
    launch_local, render, render_page.
  cbn [set_fonts w_fonts_ready].
  repeat first [ apply Forall_server_loop; intros | trace_step ];
    reflexivity.
Qed.

(** X16.  The font signal decides nothing but a warning: whether it
    arrives or not, a run ends with the same exit code and performs the
    same effects, a warning apart; and a run where it arrives has no
    warning. *)
Theorem font_signal_is_not_fatal {R : Runtime} (b : bool) (w : world)
        (c : cli) :
  snd (run (set_fonts b w) c) = snd (run w c) /\
  without_warnings (fst (run (set_fonts b w) c))
  = without_warnings (fst (run w c)) /\
  without_warnings (fst (run (set_fonts true w) c))
  = fst (run (set_fonts true w) c).
Proof.
  assert (H : same_but_warnings (script (set_fonts b w) c) (script w c)).
  { unfold script.
    change (inputPath (set_fonts b w) c) with (inputPath w c).
    change (outputPath (set_fonts b w) c) with (outputPath w c).
    change (w_read_json (set_fonts b w)) with (w_read_json w).
    repeat same_step. }
  pose proof (no_warning_with_fonts w c) as Hn.
  unfold run. destruct H as [Hr Ht].
  destruct (script (set_fonts b w) c) as [t1 r1], (script w c) as [t2 r2],
    (script (set_fonts true w) c) as [t3 r3].
  cbn [fst snd] in *. subst r2.
  split; [reflexivity |]. split; [exact Ht |].
  unfold without_warnings. clear -Hn.
  induction Hn as [| e t He _ IH]; [reflexivity |].
  cbn [filter]. rewrite He. cbn [negb]. now rewrite IH.
Qed.

(* ------------------------------------------------------------------ *)
(** ** More on the geometry *)

(** X17.  The free-form branch always returns a number, never null and
    never NaN, and that number is at least the minimal page height; for a
    document without page elements it is the minimal page height itself
    (when that is not negative). *)
Theorem free_form_height_at_least_min {R : Runtime} (marginY : number)
        (m : Q) (d : dom) :
  exists q,
    snd (geometry_pass marginY true (Num m) d) = Some (Num q) /\
    (m <= q)%Q /\
    (exists total, content_height marginY d = Num total /\ (total <= q)%Q) /\
    (pageElements d = [] -> (0 <= m)%Q -> q = m).
Proof.
  unfold geometry_pass, free_form_pass, content_height. cbn [snd].
  destruct (total_height_Num
              (space_all_but_last (mul marginY three_quarters)
                 (pageElements d))) as [total Ht].
  rewrite Ht. unfold Math_max.
  exists (if Qle_bool total m then m else total).
  split; [reflexivity |].
  destruct (Qle_bool total m) eqn:E.
  - apply Qle_bool_iff in E. repeat split.
    + apply Qle_refl.
    + exists total. split; [reflexivity | exact E].
  - assert (Hlt : (m < total)%Q).
    { apply Qnot_le_lt. intros Hle. apply Qle_bool_iff in Hle. congruence. }
    repeat split.
    + now apply Qlt_le_weak.
    + exists total. split; [reflexivity | apply Qle_refl].
    + intros Hnil Hm. rewrite Hnil in Ht. cbn in Ht.
      injection Ht as <-. exfalso.
      apply (Qlt_not_le _ _ Hlt). exact Hm.
Qed.

Lemma space_all_but_last_nth {R : Runtime} (v : number) (l : list element)
      (i : nat) :
  nth_error (space_all_but_last v l) i
  = option_map (fun el => if (S i <? List.length l)%nat
                          then set_marginBottom_px v el else el)
      (nth_error l i).
Proof.
  revert i. induction l as [| x l IH]; intros i.
  - now destruct i.
  - destruct l as [| y l].
    + destruct i as [| i]; [reflexivity |]. now destruct i.
    + destruct i as [| i].
      * reflexivity.
      * change (space_all_but_last v (x :: y :: l))
          with (set_marginBottom_px v x :: space_all_but_last v (y :: l)).
        cbn [nth_error]. rewrite IH. reflexivity.
Qed.

(** X18.  The free-form branch leaves the root and the container as they
    are and changes no page element but in its inline bottom margin: that
    of every element but the last becomes the vertical margin times 0.75
    in px, unless that product is NaN; the last element, and everything
    else of every element, is untouched. *)
Theorem free_form_frame {R : Runtime} (marginY minPageHeight : number)
        (d : dom) :
  let after := fst (geometry_pass marginY true minPageHeight d) in
  let spacing := mul marginY three_quarters in
  root after = root d /\
  container after = container d /\
  List.length (pageElements after) = List.length (pageElements d) /\
  forall i el,
    nth_error (pageElements d) i = Some el ->
    exists el',
      nth_error (pageElements after) i = Some el' /\
      data_page_index el' = data_page_index el /\
      offsetHeight el' = offsetHeight el /\
      sheet_marginBottom el' = sheet_marginBottom el /\
      style_breakBefore el' = style_breakBefore el /\
      style_breakInside el' = style_breakInside el /\
      style_marginBottom el'
      = (if ((S i <? List.length (pageElements d))%nat
             && negb (isNaN spacing))%bool
         then Some (px spacing) else style_marginBottom el).
Proof.
  cbv zeta.
  unfold geometry_pass, free_form_pass. cbn [fst root container pageElements].
  split; [reflexivity |]. split; [reflexivity |]. split.
  - generalize (mul marginY three_quarters).
    intros v. induction (pageElements d) as [| x l IH]; [reflexivity |].
    destruct l as [| y l]; [reflexivity |].
    change (space_all_but_last v (x :: y :: l))
      with (set_marginBottom_px v x :: space_all_but_last v (y :: l)).
    cbn [List.length] in *. now rewrite IH.
  - intros i el Hel. rewrite space_all_but_last_nth, Hel. cbn [option_map].
    eexists. split; [reflexivity |].
    unfold set_marginBottom_px.
    destruct (S i <? List.length (pageElements d))%nat,
      (isNaN (mul marginY three_quarters)); cbn; repeat split.
Qed.

(* ------------------------------------------------------------------ *)
(** ** What the validation lets through *)







(* ------------------------------------------------------------------ *)
(** ** Release once a browser is acquired *)

Lemma browser_open_app (t1 t2 : list event) (b : bool) :
  browser_open (t1 ++ t2) b = browser_open t2 (browser_open t1 b).
Proof.
  revert b. induction t1 as [| e t1 IH]; intros b; [reflexivity |].
  destruct e; simpl; apply IH.
Qed.

Lemma existsb_acquire_none (t : list event) :
  Forall (fun e => is_acquire e = false) t -> existsb is_acquire t = false.
Proof.
  induction 1 as [| e t He _ IH]; [reflexivity |].
  cbn [existsb]. now rewrite He, IH.
Qed.

Lemma released_none (t : list event) :
  Forall (fun e => is_acquire e = false) t -> released t.
Proof.
  intros H Hex. rewrite (existsb_acquire_none _ H) in Hex. discriminate.
Qed.

Lemma released_prefix (t1 t2 : list event) :
  Forall (fun e => is_acquire e = false) t1 ->
  released t2 -> released (t1 ++ t2).
Proof.
  intros H1 H2 Hex b1 b2.
  rewrite existsb_app, (existsb_acquire_none _ H1) in Hex. cbn [orb] in Hex.
  rewrite server_running_app, browser_open_app. now apply H2.
Qed.

Lemma console_suffix (t s : list event) (b1 b2 : bool) :
  Forall (fun e => is_console e = true) s ->
  server_running (t ++ s) b1 = server_running t b1 /\
  browser_open (t ++ s) b2 = browser_open t b2 /\
  existsb is_acquire (t ++ s) = existsb is_acquire t.
Proof.
  intros Hs. rewrite server_running_app, browser_open_app, existsb_app.
  generalize (server_running t b1) as x, (browser_open t b2) as y.
  induction Hs as [| e s He _ IH]; intros x y.
  - cbn. now rewrite orb_false_r.
  - destruct (IH x y) as [H1 [H2 H3]].
    destruct e; try discriminate; cbn in *; auto.
Qed.

Lemma released_suffix (t s : list event) :
  Forall (fun e => is_console e = true) s ->
  released t -> released (t ++ s).
Proof.
  intros Hs Ht Hex b1 b2.
  destruct (console_suffix t s b1 b2 Hs) as [H1 [H2 H3]].
  rewrite H1, H2. apply Ht. now rewrite <- H3.
Qed.

Lemma released_bind {A B} (m : M A) (k : A -> M B) :
  Forall (fun e => is_acquire e = false) (fst m) ->
  (forall a, released (fst (k a))) ->
  released (fst (bind m k)).
Proof.
  intros Hm Hk. destruct m as [t1 [a | e | code]]; cbn [fst] in *; simpl.
  - specialize (Hk a). destruct (k a) as [t2 r]. cbn [fst] in *.
    now apply released_prefix.
  - now apply released_none.
  - now apply released_none.
Qed.

Lemma released_try_catch {A} (body : M A) (handler : string -> M A) :
  released (fst body) ->
  (forall e, Forall (fun e => is_console e = true) (fst (handler e))) ->
  released (fst (try_catch body handler)).
Proof.
  intros Hb Hh. destruct body as [t1 [a | e | code]]; cbn [fst] in *;
    simpl; auto.
  specialize (Hh e). destruct (handler e) as [t2 r]. cbn [fst] in *.
  now apply released_suffix.
Qed.

(** The browser is acquired by the last event of a successful
    [acquire_browser], and by no event of a failed one. *)
Lemma acquire_browser_events {R : Runtime} (w : world) :
  match snd (acquire_browser w) with
  | Ret _ => True
  | _ => Forall (fun e => is_acquire e = false) (fst (acquire_browser w))
  end.
Proof.
  unfold acquire_browser, launch_local.
  destruct (w_env w "PRINTER_ENDPOINT") as [endpoint |].
  - destruct (is_empty endpoint); cbn [negb].
    + destruct (findSystemChrome w); [destruct (w_launch_ok w) |]; cbn;
        repeat constructor.
    + destruct (w_connect_ok w); cbn; repeat constructor.
  - destruct (findSystemChrome w); [destruct (w_launch_ok w) |]; cbn;
      repeat constructor.
Qed.

Lemma session_released {R : Runtime} (w : world) (rd : jsval)
      (template format : string) (ps : jsval) (url out : string) :
  w_fails w StBrowserClose = false ->
  released
    (fst (bind (acquire_browser w)
            (fun _ =>
               try_finally (render w rd template format ps url out)
                 (bind (perform w StBrowserClose EvBrowserClose)
                    (fun _ => emit EvKillServer))))).
Proof.
  intros Hclose.
  pose proof (acquire_browser_events w) as Ha.
  destruct (finally_releases w rd template format ps url out false Hclose)
    as [Hfin _]. cbv zeta in Hfin.
  destruct (acquire_browser w) as [ta [u | e | code]]; cbn [fst snd] in *.
  - unfold bind at 1.
    destruct (try_finally _ _) as [t2 r]. cbn [fst] in *. subst t2.
    intros _ b1 b2.
    rewrite !server_running_app, !browser_open_app. split; reflexivity.
  - now apply released_none.
  - now apply released_none.
Qed.

Lemma main_released {R : Runtime} (w : world) (rd : jsval)
      (template format : string) (ps : jsval) (out : string) :
  w_fails w StBrowserClose = false ->
  released (fst (main w rd template format ps out)).
Proof.
  intros Hclose. unfold main, startViteServer, waitForServer.
  repeat first
    [ apply session_released; assumption
    | apply released_bind;
      [ repeat first [ apply Forall_server_loop; intros | trace_step ];
        reflexivity
      | intros ? ] ].
Qed.

(** X21.  When closing the browser does not throw, a run that has
    connected to or launched a browser ends with the browser closed and
    the server not running. *)
Theorem acquired_browser_is_released {R : Runtime} (w : world) (c : cli) :
  w_fails w StBrowserClose = false ->
  existsb is_acquire (fst (run w c)) = true ->
  server_running (fst (run w c)) false = false /\
  browser_open (fst (run w c)) false = false.
Proof.
  intros Hclose Hacq.
  assert (H : released (fst (script w c))).
  { unfold script.
    repeat first
      [ apply main_released; assumption
      | apply released_try_catch;
        [| intros ?; repeat trace_step; reflexivity ]
      | apply released_bind; [repeat trace_step; reflexivity | intros ?]
      | match goal with
        | |- released (fst (if ?b then _ else _)) => destruct b
        | |- released (fst (match ?x with _ => _ end)) => destruct x
        | |- released (fst (throw _)) => apply released_none; constructor
        | |- released (fst (exit _)) => apply released_none; constructor
        end ]. }
  unfold run in *. destruct (script w c) as [t r]. cbn [fst] in *.
  now apply H.
Qed.

Lemma acquired_browser_is_released_witness :
  existsb is_acquire
    (fst (run (R := decimal_runtime) Sample.a4_world
            (Sample.plain_cli "cv.json"))) = true /\
  server_running
    (fst (run (R := decimal_runtime) Sample.a4_world
            (Sample.plain_cli "cv.json"))) false = false.
Proof.
  split; [reflexivity |].
  exact (proj1 (@acquired_browser_is_released decimal_runtime
                  Sample.a4_world (Sample.plain_cli "cv.json")
                  eq_refl eq_refl)).
Defined.
